(** * Re_SNAP: the potential trainer of [resnap/core/train_potential.py]

    A shallow embedding of [PotentialTrainer] (construction with optional
    feature normalization, 5-fold cross validation over a sweep of
    regularization strengths, fitting and saving the potential) and the
    properties of its fold partition, error aggregation, sweep result,
    failure modes and frame conditions.

    Numbers are IEEE binary64 values ([PrimFloat.float]), as numpy's
    [float64].  Arrays are lists (1-D) and lists of rows (2-D); the arrays
    the trainer keeps live in a heap, so that copies, views and in-place
    updates are told apart.  The libraries the module calls (the scikit-learn
    estimators and [normalize], numpy's reductions and random generator,
    [str]) are parameters of the development; they are total functions here,
    so the checks they make on their inputs (empty or non-finite training
    arrays, the range of the seed) are outside the model.  The layout of the
    fitted [coef_] (two-dimensional or one-dimensional) is part of the model.
    The plotting functions are modelled up to what decides whether their
    figure is shown: the regression line of a scatter plot and the limits of
    the error curve want finite values, and [ValueError] is raised
    otherwise.  A figure shown is recorded as an event; console output is
    left out. *)

From Stdlib Require Import ZArith List Lia Ascii String Floats Uint63.
From stdpp Require Import base option list gmap strings fin_maps.

Local Open Scope nat_scope.

(** ** Python values used by the module *)

(** The exceptions the module can raise or propagate. *)
Inductive exn :=
  | KeyError (key : string)
  | TypeError
  | ValueError
  | IndexError
  | AttributeError
  | OSError.

Inductive result (A : Type) :=
  | Ok (a : A)
  | Raise (e : exn).
Arguments Ok {A} a.
Arguments Raise {A} e.

Abbreviation vector := (list float).
Abbreviation matrix := (list (list float)).

(** Python truthiness of an optional string ([if self.norm:]): [None] and
    the empty string are false. *)
Definition truthy (s : option string) : bool :=
  match s with
  | None => false
  | Some EmptyString => false
  | Some _ => true
  end.

(** ** Index ranges and slices *)

(** [range(start, stop, step)] for a positive step. *)
Definition py_range (start stop step : nat) : list nat :=
  (λ k, start + k * step) <$> seq 0 ((stop - start + (step - 1)) `div` step).

(** [l[start::step]] for a non-negative start and a positive step. *)
Definition py_slice_from_step {A} (start step : nat) (l : list A) : list A :=
  omap (λ j, l !! j) (py_range start (length l) step).

(** Fancy indexing [a[ids]] of the rows (or entries) of an array. *)
Definition take_rows {A} (a : list A) (ids : list nat) : result (list A) :=
  match mapM (λ j, a !! j) ids with
  | Some r => Ok r
  | None => Raise IndexError
  end.

(** The fold indices of [cross_validation], for a table of [n] rows:
<<
    all_id = list(range(len(data)))
    validation_id = all_id[i::5]
    train_id = [i for i in all_id if i not in validation_id]
>> *)
Definition all_id (n : nat) : list nat := seq 0 n.

Definition validation_id (i n : nat) : list nat :=
  py_slice_from_step i 5 (all_id n).

Definition train_id (i n : nat) : list nat :=
  filter (λ j, j ∉ validation_id i n) (all_id n).

(** ** numpy array operations *)

(** An elementwise binary operation on two 1-D arrays, with numpy's
    broadcasting of shapes [(m,)] and [(n,)]: a length-1 operand is
    stretched, equal lengths pair up, anything else is a [ValueError]. *)
Definition np_binop (op : float → float → float) (a b : vector) : result vector :=
  match a, b with
  | [x], _ => Ok (op x <$> b)
  | _, [y] => Ok ((λ x, op x y) <$> a)
  | _, _ =>
      if decide (length a = length b) then Ok (zip_with op a b)
      else Raise ValueError
  end.

Definition np_absolute (a : vector) : vector := PrimFloat.abs <$> a.

(** [m[:, j]]: column [j] of a 2-D array; out of range is an [IndexError]. *)
Definition column (j : nat) (m : matrix) : result vector :=
  match mapM (λ row : vector, row !! j) m with
  | Some c => Ok c
  | None => Raise IndexError
  end.

(** [m[:, 1:]] *)
Definition from_col1 (m : matrix) : matrix := drop 1 <$> m.

(** [m[:, 1:] = features], for [features] of the shape of [m[:, 1:]]. *)
Definition assign_from_col1 (m features : matrix) : matrix :=
  zip_with (λ row frow : vector, take 1 row ++ frow) m features.

Definition ncols (m : matrix) : nat :=
  match m with
  | [] => 0
  | row :: _ => length row
  end.

(** The columns of a 2-D array, left to right. *)
Definition columns (m : matrix) : list vector :=
  (λ j, omap (λ row : vector, row !! j) m) <$> seq 0 (ncols m).

(** [np.concatenate((a, b), axis=1)] of two 2-D arrays. *)
Definition concatenate_axis1 (a b : matrix) : result matrix :=
  if decide (length a = length b) then Ok (zip_with app a b)
  else Raise ValueError.

(** The shape [(n, c)] of a 2-D array held as a list of rows. *)
Definition shape (m : matrix) (n c : nat) : Prop :=
  length m = n ∧ Forall (λ row, length row = c) m.

(** Python's built-in [max] and [min] over a sequence of floats: the first
    item is kept unless a later one compares strictly greater (smaller);
    an empty sequence is a [ValueError]. *)
Definition py_max (l : vector) : result float :=
  match l with
  | [] => Raise ValueError
  | x :: l' => Ok (fold_left (λ m y, if PrimFloat.ltb m y then y else m) l' x)
  end.

Definition py_min (l : vector) : result float :=
  match l with
  | [] => Raise ValueError
  | x :: l' => Ok (fold_left (λ m y, if PrimFloat.ltb y m then y else m) l' x)
  end.

(** [os.path.join(a, b)] (POSIX). *)
Fixpoint ends_with_slash (s : string) : bool :=
  match s with
  | EmptyString => false
  | String c EmptyString => bool_decide (c = "/"%char)
  | String _ s' => ends_with_slash s'
  end.

Definition os_path_join (a b : string) : string :=
  if String.prefix "/" b then b
  else if bool_decide (a = "") || ends_with_slash a then a +:+ b
  else a +:+ "/" +:+ b.

(** The line terminator ["\n"]. *)
Definition newline : string := String "010"%char EmptyString.

(** ** The estimators *)

(** [MODELS = {"LASSO": sklearn.linear_model.Lasso,
               "RIDGE": sklearn.linear_model.Ridge}] *)
Inductive ModelKind := Lasso | Ridge.

Definition MODELS : gmap string ModelKind :=
  {[ "LASSO" := Lasso; "RIDGE" := Ridge ]}.

(** An estimator as constructed by
    [self.f(alpha=alpha, max_iter=max_iter, tol=tol, fit_intercept=False)]. *)
Record estimator := {
  est_kind : ModelKind;
  est_alpha : float;
  est_max_iter : float;
  est_tol : float;
  est_fit_intercept : bool
}.

(** The target of a fit: a 1-D array ([training_y[train_id]] in
    [cross_validation]) or a 2-D one ([self.training_y] in
    [make_potential]). *)
Inductive target :=
  | Y1 (y : vector)
  | Y2 (y : matrix).

(** What the plotting functions hand to matplotlib. *)
Inductive plot_event :=
  | PlotYYhatAtom (y y_hat : vector)
  | PlotYYhat (y y_hat : vector)
  | PlotYYhatHeat (y y_hat : vector)
  | PlotCross (param error : vector) (y_low y_up : float).

(** A figure the libraries accept: the regression line drawn in the scatter
    plots is fitted on their points, which scikit-learn wants finite;
    matplotlib wants finite axis limits for the error curve. *)
Definition all_finite (v : vector) : bool := forallb PrimFloat.is_finite v.

Definition plottable (e : plot_event) : bool :=
  match e with
  | PlotYYhatAtom y y_hat | PlotYYhat y y_hat | PlotYYhatHeat y y_hat =>
      all_finite y && all_finite y_hat
  | PlotCross _ _ y_low y_up =>
      PrimFloat.is_finite y_low && PrimFloat.is_finite y_up
  end.

(** [model.coef_] of a fitted linear model: a 2-D array of shape
    (n_targets, n_features) for Ridge fitted on a 2-D target, a 1-D array of
    n_features entries for Lasso (which squeezes a single target) and for a
    1-D target.  [coef_[0]] is accordingly a row or a scalar. *)
Inductive coef_array :=
  | Coef1 (v : vector)
  | Coef2 (m : matrix).

Inductive coef_item :=
  | Scalar (c : float)
  | Row (v : vector).

(** [coef_[0]] *)
Definition getitem0 (c : coef_array) : result coef_item :=
  match c with
  | Coef1 v =>
      match v !! 0 with Some x => Ok (Scalar x) | None => Raise IndexError end
  | Coef2 m =>
      match m !! 0 with Some row => Ok (Row row) | None => Raise IndexError end
  end.

(** [potential / norms] with [norms] a 1-D array: a scalar is divided by
    every entry, a row is divided entry by entry under broadcasting. *)
Definition divide_by (potential : coef_item) (ns : vector) : result coef_item :=
  match potential with
  | Scalar c => Ok (Row ((λ n, PrimFloat.div c n) <$> ns))
  | Row v =>
      match np_binop PrimFloat.div v ns with
      | Ok q => Ok (Row q)
      | Raise e => Raise e
      end
  end.

(** [len(potential)]: a [numpy.float64] has no length. *)
Definition py_len (potential : coef_item) : result nat :=
  match potential with
  | Scalar _ => Raise TypeError
  | Row v => Ok (length v)
  end.

(** [potential[i]] for [i] in [range(len(potential))]. *)
Definition getitem (potential : coef_item) (i : nat) : result float :=
  match potential with
  | Scalar _ => Raise IndexError
  | Row v => match v !! i with Some c => Ok c | None => Raise IndexError end
  end.

(** The seeds [np.random.seed] accepts. *)
Definition valid_seed (seed : Z) : Prop := (0 ≤ seed < 2 ^ 32)%Z.

(** The default arguments of [cross_validation] and [make_potential]:
    [max_iter=1e6], [tol=1e-4], [seed=2020], [alpha=1.0]. *)
Definition default_max_iter : float := 1000000%float.
Definition default_tol : float := 0x1.a36e2eb1c432dp-14%float.
Definition default_seed : Z := 2020%Z.
Definition default_alpha : float := 1%float.

Example MODELS_get_RIDGE : MODELS !! "RIDGE" = Some Ridge.
Proof. reflexivity. Qed.
Example MODELS_get_other : MODELS !! "OLS" = None.
Proof. reflexivity. Qed.
Example os_path_join_dir : os_path_join "out" "re_potential" = "out/re_potential".
Proof. reflexivity. Qed.
Example os_path_join_slash : os_path_join "out/" "re_potential" = "out/re_potential".
Proof. reflexivity. Qed.

(** ** Reference collaborators

    Small executable stand-ins for the external libraries, used to run the
    trainer on concrete inputs. *)

Module Stub.

(** The generator state is a counter; shuffling rotates the rows by it. *)
Definition rng_state : Type := Z.

Definition np_random_seed (seed : Z) : rng_state := seed.

Definition np_random_shuffle (r : rng_state) (m : matrix)
  : matrix * rng_state :=
  (rotate (Z.to_nat r) m, (r + 1)%Z).

(** A linear model is its coefficient vector, with the layout of its
    [coef_] (2-D for Ridge on a 2-D target, 1-D otherwise); the fit puts the
    first coefficient through the first sample (zero when that sample's
    first feature is zero) and leaves the others at zero. *)
Definition fitted : Type := bool * vector.

Definition target_head (y : target) : float :=
  match y with
  | Y1 v => default 0%float (v !! 0)
  | Y2 m => default 0%float (m !! 0 ≫= (.!! 0))
  end.

Definition weights (X : matrix) (y : target) : vector :=
  match ncols X with
  | 0 => []
  | S d =>
      let x := default 0%float (X !! 0 ≫= (.!! 0)) in
      (if PrimFloat.eqb x 0 then 0%float else PrimFloat.div (target_head y) x)
        :: replicate d 0%float
  end.

Definition fit (e : estimator) (X : matrix) (y : target) : fitted :=
  (match est_kind e, y with Ridge, Y2 _ => true | _, _ => false end,
   weights X y).

Definition predict_row (m : fitted) (row : vector) : float :=
  fold_left PrimFloat.add (zip_with PrimFloat.mul row (snd m)) 0%float.

Definition coef_ (m : fitted) : coef_array :=
  if fst m then Coef2 [snd m] else Coef1 (snd m).

(** The mean as a sequential sum divided by the count. *)
Definition of_nat (k : nat) : float :=
  PrimFloat.of_uint63 (Uint63.of_Z (Z.of_nat k)).

Definition np_mean (l : vector) : float :=
  PrimFloat.div (fold_left PrimFloat.add l 0%float) (of_nat (length l)).

(** The l1, l2 and max norms of a column, a zero norm being replaced by 1. *)
Definition column_norm (norm : string) (col : vector) : float :=
  let n :=
    if bool_decide (norm = "l1") then
      fold_left PrimFloat.add (PrimFloat.abs <$> col) 0%float
    else if bool_decide (norm = "l2") then
      PrimFloat.sqrt
        (fold_left PrimFloat.add ((λ x, PrimFloat.mul x x) <$> col) 0%float)
    else
      fold_left (λ m y, if PrimFloat.ltb m y then y else m)
        (PrimFloat.abs <$> col) 0%float in
  if PrimFloat.eqb n 0 then 1%float else n.

(** A float printed as sign, binary mantissa and binary exponent. *)
Fixpoint pos_digits (p : positive) : string :=
  match p with
  | xH => "1"
  | xO q => pos_digits q +:+ "0"
  | xI q => pos_digits q +:+ "1"
  end.

Definition sign_text (s : bool) : string := if s then "-" else "".

Definition str (x : float) : string :=
  match Prim2SF x with
  | S754_zero s => sign_text s +:+ "0.0"
  | S754_infinity s => sign_text s +:+ "inf"
  | S754_nan => "nan"
  | S754_finite s m e =>
      sign_text s +:+ "0b" +:+ pos_digits m +:+ "p" +:+
      match e with
      | Z0 => "0"
      | Zpos p => pos_digits p
      | Zneg p => "-" +:+ pos_digits p
      end
  end.

End Stub.

(** ** The trainer *)

Section Trainer.

(** *** External collaborators *)

(** numpy's global random generator: [np.random.seed] replaces its state
    (for a seed numpy accepts, [0 <= seed < 2**32]), [np.random.shuffle]
    permutes the rows of an array in place and advances it. *)
Variable rng_state : Type.
Variable np_random_seed : Z → rng_state.
Variable np_random_shuffle : rng_state → matrix → matrix * rng_state.

(** scikit-learn's linear models: [fit] yields a fitted model, which
    predicts row by row and exposes its coefficients as [coef_]. *)
Variable fitted : Type.
Variable fit : estimator → matrix → target → fitted.
Variable predict_row : fitted → vector → float.
Variable coef_ : fitted → coef_array.

(** numpy's reductions [np.average] and [np.mean] of a 1-D array. *)
Variable np_average : vector → float.
Variable np_mean : vector → float.

(** The scale [sklearn.preprocessing.normalize] divides a column by,
    for a given norm. *)
Variable column_norm : string → vector → float.

(** [str] of a [numpy.float64]. *)
Variable str : float → string.

(** *** The state the module acts on *)

Record World := {
  heap : list matrix;                          (* numpy arrays, by address *)
  rng : rng_state;                             (* numpy's global generator *)
  mat_files : gmap string (gmap string matrix); (* .mat files, by path *)
  files : gmap string string;                  (* text files, by path *)
  writable : gset string;                      (* paths open(_, 'w') accepts *)
  plots : list plot_event                      (* figures shown so far *)
}.

Definition set_heap (h : list matrix) (w : World) : World :=
  {| heap := h; rng := rng w; mat_files := mat_files w;
     files := files w; writable := writable w; plots := plots w |}.
Definition set_rng (r : rng_state) (w : World) : World :=
  {| heap := heap w; rng := r; mat_files := mat_files w;
     files := files w; writable := writable w; plots := plots w |}.
Definition set_files (f : gmap string string) (w : World) : World :=
  {| heap := heap w; rng := rng w; mat_files := mat_files w;
     files := f; writable := writable w; plots := plots w |}.
Definition set_plots (p : list plot_event) (w : World) : World :=
  {| heap := heap w; rng := rng w; mat_files := mat_files w;
     files := files w; writable := writable w; plots := p |}.

(** Computations that read and update the world and may raise; the world
    at the point of the exception is kept. *)
Definition M (A : Type) : Type := World → result A * World.

Definition ret {A} (a : A) : M A := λ w, (Ok a, w).
Definition raise {A} (e : exn) : M A := λ w, (Raise e, w).
Definition bind {A B} (c : M A) (k : A → M B) : M B :=
  λ w, match c w with
       | (Ok a, w') => k a w'
       | (Raise e, w') => (Raise e, w')
       end.
Definition lift {A} (r : result A) : M A := λ w, (r, w).

Notation "'let*' x ':=' c 'in' k" := (bind c (λ x, k))
  (at level 10, x pattern, c at level 100, k at level 200).

Fixpoint mapM_st {A B} (f : A → M B) (l : list A) : M (list B) :=
  match l with
  | [] => ret []
  | a :: l' =>
      let* b := f a in
      let* bs := mapM_st f l' in
      ret (b :: bs)
  end.

(** Arrays live in the heap; an address names one array.  The addresses a
    trainer holds come from [alloc]; reading any other address raises. *)
Definition alloc (m : matrix) : M nat :=
  λ w, (Ok (length (heap w)), set_heap (heap w ++ [m]) w).
Definition read (l : nat) : M matrix :=
  λ w, match heap w !! l with
       | Some m => (Ok m, w)
       | None => (Raise AttributeError, w)
       end.
Definition write (l : nat) (m : matrix) : M unit :=
  λ w, (Ok (), set_heap (<[l := m]> (heap w)) w).

(** [np.random.seed(seed)] and [np.random.shuffle(data)]. *)
Definition random_seed (seed : Z) : M unit :=
  λ w, (Ok (), set_rng (np_random_seed seed) w).
Definition random_shuffle (l : nat) : M unit :=
  let* m := read l in
  λ w, let '(m', r) := np_random_shuffle (rng w) m in
       (Ok (), set_rng r (set_heap (<[l := m']> (heap w)) w)).

(** [scipy.io.loadmat(path)]: the named arrays of a .mat file. *)
Definition loadmat (path : string) : M (gmap string matrix) :=
  λ w, match mat_files w !! path with
       | Some d => (Ok d, w)
       | None => (Raise OSError, w)
       end.

(** [open(path, 'w')] truncates or creates the file; [f.write(s)]
    appends to it. *)
Definition open_w (path : string) : M unit :=
  λ w, if decide (path ∈ writable w)
       then (Ok (), set_files (<[path := ""]> (files w)) w)
       else (Raise OSError, w).
Definition file_write (path : string) (s : string) : M unit :=
  λ w, (Ok (), set_files (<[path := default "" (files w !! path) +:+ s]> (files w)) w).

Definition show (e : plot_event) : M unit :=
  λ w, (Ok (), set_plots (plots w ++ [e]) w).

(** [sklearn.preprocessing.normalize(X, norm=norm, axis=0, copy=True,
    return_norm=True)]: every column divided by its scale, and the
    scales. *)
Definition normalize (norm : string) (X : matrix) : result (matrix * vector) :=
  if decide (norm ∈ ["l1"; "l2"; "max"]) then
    let norms := column_norm norm <$> columns X in
    Ok ((λ row : vector, zip_with PrimFloat.div row norms) <$> X, norms)
  else Raise ValueError.

Definition predict (m : fitted) (X : matrix) : vector := predict_row m <$> X.

(** *** [PotentialTrainer] *)

Record PotentialTrainer := {
  data_dir : string;
  f : option ModelKind;
  training_x : nat;
  norm : option string;
  norms : option vector;
  training_y : nat;
  training_data : nat
}.

Definition __init__ (data_dir f : string) (norm : option string)
  : M PotentialTrainer :=
  let self_f := MODELS !! f in
  let* data := loadmat data_dir in
  let* _ := mapM_st (λ data_name,
              match data !! data_name with
              | Some _ => ret ()
              | None => raise (KeyError data_name)
              end) ["X"; "y"] in
  let X := default [] (data !! "X") in
  let* training_x := alloc X in
  let* self_norms :=
    if truthy norm then
      let features := from_col1 X in
      let* (features, norms) :=
        lift (normalize (default "" norm) features) in
      let* _ := write training_x (assign_from_col1 X features) in
      ret (Some norms)
    else ret None in
  let y := default [] (data !! "y") in
  let* training_y := alloc y in
  let* X' := read training_x in
  let* table := lift (concatenate_axis1 y X') in
  let* training_data := alloc table in
  ret {| data_dir := data_dir; f := self_f; training_x := training_x;
         norm := norm; norms := self_norms; training_y := training_y;
         training_data := training_data |}.

(** [self.f(alpha=alpha, max_iter=max_iter, tol=tol, fit_intercept=False)];
    calling [None] is a [TypeError]. *)
Definition call_f (self : PotentialTrainer) (alpha max_iter tol : float)
  : M estimator :=
  match f self with
  | Some kind =>
      ret {| est_kind := kind; est_alpha := alpha; est_max_iter := max_iter;
             est_tol := tol; est_fit_intercept := false |}
  | None => raise TypeError
  end.

(** The end of a plotting function: the figure is shown when the libraries
    accepted its values; [LinearRegression.fit] (in the scatter plots) and
    [plt.ylim] (in the error curve) raise [ValueError] on NaN or infinite
    values, before [plt.show()]. *)
Definition show_figure (e : plot_event) : M unit :=
  if plottable e then show e else raise ValueError.

Definition plot_y_yhat_atom (y y_hat : vector) : M unit :=
  show_figure (PlotYYhatAtom y y_hat).

Definition plot_y_yhat (y y_hat num_array : vector) : M unit :=
  let* y := lift (np_binop PrimFloat.mul y num_array) in
  let* y_hat := lift (np_binop PrimFloat.mul y_hat num_array) in
  show_figure (PlotYYhat y y_hat).

Definition plot_y_yhat_heat (y y_hat : vector) : M unit :=
  show_figure (PlotYYhatHeat y y_hat).

Definition plot_cross (param error : vector) (y_low y_up : float) : M unit :=
  show_figure (PlotCross param error y_low y_up).

(** [np.average(np.absolute(y - predicted) / num_array)] *)
Definition per_atom_error (y predicted num_array : vector) : result float :=
  match np_binop PrimFloat.sub y predicted with
  | Ok d =>
      match np_binop PrimFloat.div (np_absolute d) num_array with
      | Ok q => Ok (np_average q)
      | Raise e => Raise e
      end
  | Raise e => Raise e
  end.

(** One pass of the body of [for i in range(5)]: the fold's validation
    and training errors. *)
Definition fold_body (self : PotentialTrainer)
    (training_x : matrix) (training_y num_array : vector) (len_data : nat)
    (alpha max_iter tol : float) (plot_image : option string) (i : nat)
  : M (float * float) :=
  let validation_id := validation_id i len_data in
  let train_id := train_id i len_data in
  let* train_x := lift (take_rows training_x train_id) in
  let* train_y := lift (take_rows training_y train_id) in
  let* validation_x := lift (take_rows training_x validation_id) in
  let* validation_y := lift (take_rows training_y validation_id) in
  let* num_array_train := lift (take_rows num_array train_id) in
  let* num_array_val := lift (take_rows num_array validation_id) in
  let* model := call_f self alpha max_iter tol in
  let model := fit model train_x (Y1 train_y) in
  let predicted_validation := predict model validation_x in
  let predicted_train := predict model train_x in
  let* error_val :=
    lift (per_atom_error validation_y predicted_validation num_array_val) in
  let* error_train :=
    lift (per_atom_error train_y predicted_train num_array_train) in
  let* _ :=
    if bool_decide (i = 0) && bool_decide (plot_image = Some "atom") then
      let* a := lift (np_binop PrimFloat.div train_y num_array_train) in
      let* b := lift (np_binop PrimFloat.div predicted_train num_array_train) in
      let* _ := plot_y_yhat_atom a b in
      let* a := lift (np_binop PrimFloat.div validation_y num_array_val) in
      let* b := lift (np_binop PrimFloat.div predicted_validation num_array_val) in
      plot_y_yhat_atom a b
    else ret () in
  let* _ :=
    if bool_decide (i = 0) && bool_decide (plot_image = Some "sample") then
      let* a := lift (np_binop PrimFloat.div train_y num_array_train) in
      let* b := lift (np_binop PrimFloat.div predicted_train num_array_train) in
      let* _ := plot_y_yhat a b num_array_train in
      let* a := lift (np_binop PrimFloat.div validation_y num_array_val) in
      let* b := lift (np_binop PrimFloat.div predicted_validation num_array_val) in
      plot_y_yhat a b num_array_val
    else ret () in
  ret (error_val, error_train).

(** One pass of the body of [for alpha in alpha_range]: the value appended
    to [alpha_errors]. *)
Definition alpha_body (self : PotentialTrainer)
    (training_x : matrix) (training_y num_array : vector) (len_data : nat)
    (max_iter tol : float) (plot_image : option string) (alpha : float)
  : M float :=
  let* errors :=
    mapM_st (fold_body self training_x training_y num_array len_data
               alpha max_iter tol plot_image) (seq 0 5) in
  let errors_validation := fst <$> errors in
  let errors_train := snd <$> errors in
  let mean_train_e := np_mean errors_train in
  let mean_val_e := np_mean errors_validation in
  ret (np_mean errors_validation).

Definition cross_validation (self : PotentialTrainer) (alpha_range : vector)
    (max_iter tol : float) (plot_image : option string) (seed : Z)
  : M vector :=
  let* table := read (training_data self) in
  let* data := alloc table in
  let* _ := random_seed seed in
  let* _ := random_shuffle data in
  let* data := read data in
  let training_x := from_col1 data in
  let* training_y := lift (column 0 data) in
  let* num_array := lift (column 1 data) in
  let* alpha_errors :=
    mapM_st (alpha_body self training_x training_y num_array (length data)
               max_iter tol plot_image) alpha_range in
  let* max_e := lift (py_max alpha_errors) in
  let* min_e := lift (py_min alpha_errors) in
  let diff := PrimFloat.sub max_e min_e in
  let* _ := plot_cross alpha_range alpha_errors
              (PrimFloat.sub min_e diff) (PrimFloat.add max_e diff) in
  ret alpha_errors.

Definition make_potential (self : PotentialTrainer) (output_dir : string)
    (alpha max_iter tol : float) : M unit :=
  let* model := call_f self alpha max_iter tol in
  let* X := read (training_x self) in
  let* y := read (training_y self) in
  let model := fit model X (Y2 y) in
  let* potential := lift (getitem0 (coef_ model)) in   (* a row or a scalar *)
  let* potential :=
    if truthy (norm self) then
      match norms self with
      | Some ns => lift (divide_by potential ns)
      | None => raise AttributeError
      end
    else ret potential in
  let path := os_path_join output_dir "re_potential" in
  let* _ := open_w path in                  (* the file is truncated here *)
  let* n := lift (py_len potential) in      (* inside the [with] block *)
  let* _ := mapM_st (λ i,
              let* c := lift (getitem potential i) in
              file_write path (str c +:+ newline)) (seq 0 n) in
  ret ().


(** *** Notions used to state the properties *)

(** [emits c r evs]: whatever the world, [c] ends with [r] and changes the
    world only by showing the figures [evs]. *)
Definition emits {A} (c : M A) (r : result A) (evs : list plot_event) : Prop :=
  ∀ w, c w = (r, set_plots (plots w ++ evs) w).

(** A computation is oblivious when its outcome and its figures do not
    depend on the world it runs in. *)
Definition oblivious {A} (c : M A) : Prop := ∃ r evs, emits c r evs.

(** The working table after [np.random.seed(seed)] and
    [np.random.shuffle(data)], and the generator state they leave. *)
Definition working_table (seed : Z) (table : matrix) : matrix :=
  fst (np_random_shuffle (np_random_seed seed) table).

Definition rng_after (seed : Z) (table : matrix) : rng_state :=
  snd (np_random_shuffle (np_random_seed seed) table).

(** The world once the shuffled copy is in place. *)
Definition after_shuffle (seed : Z) (table : matrix) (w : World) : World :=
  set_rng (rng_after seed table)
    (set_heap (heap w ++ [working_table seed table]) w).

(** The rest of [cross_validation], from [training_x = data[:, 1:]] on. *)
Definition sweep (self : PotentialTrainer) (data : matrix)
    (alpha_range : vector) (max_iter tol : float) (plot_image : option string)
  : M vector :=
  let training_x := from_col1 data in
  let* training_y := lift (column 0 data) in
  let* num_array := lift (column 1 data) in
  let* alpha_errors :=
    mapM_st (alpha_body self training_x training_y num_array (length data)
               max_iter tol plot_image) alpha_range in
  let* max_e := lift (py_max alpha_errors) in
  let* min_e := lift (py_min alpha_errors) in
  let diff := PrimFloat.sub max_e min_e in
  let* _ := plot_cross alpha_range alpha_errors
              (PrimFloat.sub min_e diff) (PrimFloat.add max_e diff) in
  ret alpha_errors.

(** Entry [j] of a row. *)
Definition entry (j : nat) (row : vector) : float := default 0%float (row !! j).

(** The text of a potential file: each coefficient on a line of its own. *)
Definition potential_text (potential : vector) : string :=
  foldr (λ c acc, (str c +:+ newline) +:+ acc) "" potential.

(** The number of line terminators in a text. *)
Fixpoint count_lines (s : string) : nat :=
  match s with
  | EmptyString => 0
  | String c s' => (if Ascii.eqb c "010"%char then 1 else 0) + count_lines s'
  end.

(** The coefficients [make_potential] is about to write: item 0 of the
    fitted [coef_], divided by the stored scales when a norm is set. *)
Definition potential_of (self : PotentialTrainer) (X y : matrix)
    (alpha max_iter tol : float) : result coef_item :=
  match f self with
  | None => Raise TypeError
  | Some kind =>
      let model :=
        fit {| est_kind := kind; est_alpha := alpha; est_max_iter := max_iter;
               est_tol := tol; est_fit_intercept := false |} X (Y2 y) in
      match getitem0 (coef_ model) with
      | Raise e => Raise e
      | Ok potential =>
          if truthy (norm self) then
            match norms self with
            | Some ns => divide_by potential ns
            | None => Raise AttributeError
            end
          else Ok potential
      end
  end.

(** The world [make_potential] leaves once the file is open and the
    coefficients are [potential]: the file written line by line, or, for a
    scalar, left empty by the [TypeError] of [len(potential)]. *)
Definition written (path : string) (potential : coef_item) (w : World)
  : result unit * World :=
  match potential with
  | Row v => (Ok (), set_files (<[path := potential_text v]> (files w)) w)
  | Scalar _ => (Raise TypeError, set_files (<[path := ""]> (files w)) w)
  end.

(** A row of [training_x] after [self.training_x[:, 1:] = features]: its
    first entry kept, the others divided by the scales. *)
Definition normalized_row (ns : vector) (row : vector) : vector :=
  take 1 row ++ zip_with PrimFloat.div (drop 1 row) ns.

(** The per-atom error as the specification words it, row by row; the
    properties compare the code's array computations with these. *)

(** The energy and the atom count of a row of the working table: its
    entries 0 and 1. *)
Definition energy (row : vector) : float := entry 0 row.
Definition atom_count (row : vector) : float := entry 1 row.

(** The rows of a table at given indices. *)
Definition rows_at (data : matrix) (ids : list nat) : matrix :=
  omap (λ j, data !! j) ids.

(** The model of fold [i]: fitted, without intercept, on the training rows'
    columns [1..] against their energies. *)
Definition fold_model (kind : ModelKind) (data : matrix)
    (alpha max_iter tol : float) (i : nat) : fitted :=
  let train := rows_at data (train_id i (length data)) in
  fit {| est_kind := kind; est_alpha := alpha; est_max_iter := max_iter;
         est_tol := tol; est_fit_intercept := false |}
      (from_col1 train) (Y1 (energy <$> train)).

(** The per-atom error of one row: [|true_energy - predicted_energy|]
    divided by the row's atom count. *)
Definition row_error (m : fitted) (row : vector) : float :=
  PrimFloat.div
    (PrimFloat.abs (PrimFloat.sub (energy row) (predict_row m (drop 1 row))))
    (atom_count row).

(** The per-atom error of a split: the mean of its rows' errors. *)
Definition split_error (m : fitted) (rows : matrix) : float :=
  np_average (row_error m <$> rows).

Definition validation_error (kind : ModelKind) (data : matrix)
    (alpha max_iter tol : float) (i : nat) : float :=
  split_error (fold_model kind data alpha max_iter tol i)
    (rows_at data (validation_id i (length data))).

Definition training_error (kind : ModelKind) (data : matrix)
    (alpha max_iter tol : float) (i : nat) : float :=
  split_error (fold_model kind data alpha max_iter tol i)
    (rows_at data (train_id i (length data))).

(** The mean validation error of one alpha: the mean over the 5 folds. *)
Definition mean_validation_error (kind : ModelKind) (data : matrix)
    (max_iter tol : float) (alpha : float) : float :=
  np_mean ((λ i, validation_error kind data alpha max_iter tol i) <$> seq 0 5).

(** *** The example script, [examples/example_train_potential.py] *)

(** [example_trainer()], with [DATA_DIR = os.path.dirname(__file__)]:
<<
    pt = PotentialTrainer(os.path.join(DATA_DIR, "re.mat"), "RIDGE")
    pt.cross_validation(np.array([0, 0.01, 0.1, 1]), plot_image="atom")
    pt.make_potential(DATA_DIR, alpha=0.0)
>> *)
Definition example_alphas : vector :=
  [0; 0x1.47ae147ae147bp-7; 0x1.999999999999ap-4; 1]%float.

Definition example_trainer (DATA_DIR : string) : M unit :=
  let* pt := __init__ (os_path_join DATA_DIR "re.mat") "RIDGE" None in
  let* _ := cross_validation pt example_alphas default_max_iter default_tol
              (Some "atom") default_seed in
  make_potential pt DATA_DIR 0 default_max_iter default_tol.

(** *** Notions used to state further properties *)

(** A trainer is consistent in a world when its three arrays are there and
    the table is [training_y] and [training_x] side by side. *)
Definition consistent (self : PotentialTrainer) (w : World) : Prop :=
  ∃ X y,
    heap w !! training_x self = Some X ∧
    heap w !! training_y self = Some y ∧
    length y = length X ∧
    heap w !! training_data self = Some (zip_with app y X).

(** The figures of fold [i] of [cross_validation], row by row: in mode
    ["atom"] the energies and predictions per atom, in mode ["sample"] these
    multiplied back by the atom count; fold 0 only, training rows first. *)
Definition per_atom_pair (m : fitted) (rows : matrix) : vector * vector :=
  ((λ row, PrimFloat.div (energy row) (atom_count row)) <$> rows,
   (λ row, PrimFloat.div (predict_row m (drop 1 row)) (atom_count row))
     <$> rows).

Definition per_sample_pair (m : fitted) (rows : matrix) : vector * vector :=
  ((λ row, PrimFloat.mul (PrimFloat.div (energy row) (atom_count row))
             (atom_count row)) <$> rows,
   (λ row, PrimFloat.mul
             (PrimFloat.div (predict_row m (drop 1 row)) (atom_count row))
             (atom_count row)) <$> rows).

Definition fold_figures (kind : ModelKind) (data : matrix)
    (alpha max_iter tol : float) (plot_image : option string) (i : nat)
  : list plot_event :=
  let m := fold_model kind data alpha max_iter tol i in
  let train := rows_at data (train_id i (length data)) in
  let val := rows_at data (validation_id i (length data)) in
  (if bool_decide (i = 0) && bool_decide (plot_image = Some "atom") then
     [PlotYYhatAtom (fst (per_atom_pair m train)) (snd (per_atom_pair m train));
      PlotYYhatAtom (fst (per_atom_pair m val)) (snd (per_atom_pair m val))]
   else []) ++
  (if bool_decide (i = 0) && bool_decide (plot_image = Some "sample") then
     [PlotYYhat (fst (per_sample_pair m train)) (snd (per_sample_pair m train));
      PlotYYhat (fst (per_sample_pair m val)) (snd (per_sample_pair m val))]
   else []).

(** The figures of a whole run of [cross_validation]: for each alpha those
    of fold 0, then the error curve, whose y-axis runs from
    [min_e - (max_e - min_e)] to [max_e + (max_e - min_e)]. *)
Definition sweep_figures (kind : ModelKind) (data : matrix)
    (alpha_range : vector) (max_iter tol : float) (plot_image : option string)
  : list plot_event :=
  let errors := mean_validation_error kind data max_iter tol <$> alpha_range in
  concat ((λ alpha, fold_figures kind data alpha max_iter tol plot_image 0)
            <$> alpha_range) ++
  match py_max errors, py_min errors with
  | Ok max_e, Ok min_e =>
      [PlotCross alpha_range errors
         (PrimFloat.sub min_e (PrimFloat.sub max_e min_e))
         (PrimFloat.add max_e (PrimFloat.sub max_e min_e))]
  | _, _ => []
  end.

(** ** Properties *)

(** ** Index ranges *)

Lemma elem_of_py_range start stop step k :
  0 < step →
  k ∈ py_range start stop step ↔
  start ≤ k < stop ∧ (k - start) `mod` step = 0.
Proof.
  intros Hstep. unfold py_range. rewrite list_elem_of_fmap. split.
  - intros (q & -> & Hq). apply elem_of_seq in Hq. simpl in Hq.
    pose proof (Nat.Div0.mul_div_le (stop - start + (step - 1)) step) as Hd.
    split.
    + nia.
    + replace (start + q * step - start) with (q * step) by lia.
      apply Nat.Div0.mod_mul.
  - intros [[Hlo Hhi] Hmod].
    exists ((k - start) `div` step). split.
    + pose proof (Nat.div_mod_eq (k - start) step) as E. rewrite Hmod in E. lia.
    + apply elem_of_seq. split; [lia|]. simpl.
      apply Nat.Div0.div_lt_upper_bound.
      pose proof (Nat.div_mod_eq (k - start) step) as E. rewrite Hmod in E.
      pose proof (Nat.div_mod_eq (stop - start + (step - 1)) step) as E2.
      pose proof (Nat.mod_upper_bound (stop - start + (step - 1)) step).
      nia.
Qed.

Lemma omap_id_on {A} (f : A → option A) (l : list A) :
  (∀ x, x ∈ l → f x = Some x) → omap f l = l.
Proof.
  induction l as [|a l IH]; intros H; simpl; [done|].
  rewrite (H a) by constructor. f_equal. apply IH.
  intros x Hx. apply H. by constructor.
Qed.

Lemma validation_id_range i n : validation_id i n = py_range i n 5.
Proof.
  unfold validation_id, py_slice_from_step, all_id. rewrite length_seq.
  apply omap_id_on. intros k Hk.
  apply elem_of_py_range in Hk; [|lia].
  rewrite lookup_seq_lt by lia. done.
Qed.

Lemma elem_of_validation_id i n k :
  i < 5 → k ∈ validation_id i n ↔ k < n ∧ k `mod` 5 = i.
Proof.
  intros Hi. rewrite validation_id_range, elem_of_py_range by lia.
  pose proof (Nat.div_mod_eq (k - i) 5).
  pose proof (Nat.div_mod_eq k 5).
  pose proof (Nat.mod_upper_bound k 5).
  pose proof (Nat.mod_upper_bound (k - i) 5).
  split.
  - intros [[Hlo Hhi] Hmod]. split; [done|]. lia.
  - intros [Hlt Hmod]. lia.
Qed.

Lemma elem_of_train_id i n k :
  k ∈ train_id i n ↔ k < n ∧ k ∉ validation_id i n.
Proof.
  unfold train_id, all_id. rewrite list_elem_of_filter, elem_of_seq.
  split; intros []; split; (done || lia).
Qed.

Lemma NoDup_py_range start stop step :
  0 < step → NoDup (py_range start stop step).
Proof.
  intros Hstep. unfold py_range. apply NoDup_fmap_2; [|apply NoDup_seq].
  intros a b Hab. nia.
Qed.

Example validation_id_0_12 : validation_id 0 12 = [0; 5; 10].
Proof. reflexivity. Qed.
Example validation_id_3_12 : validation_id 3 12 = [3; 8].
Proof. reflexivity. Qed.
Example train_id_3_12 : train_id 3 12 = [0; 1; 2; 4; 5; 6; 7; 9; 10; 11].
Proof. reflexivity. Qed.
Example validation_id_4_3 : validation_id 4 3 = [].
Proof. reflexivity. Qed.



(** ** Running the monad *)

Lemma bind_lift_ok {A B} (a : A) (k : A → M B) : bind (lift (Ok a)) k = k a.
Proof. reflexivity. Qed.

Lemma bind_ret {A B} (a : A) (k : A → M B) : bind (ret a) k = k a.
Proof. reflexivity. Qed.

Lemma set_plots_nil (w : World) : set_plots (plots w ++ []) w = w.
Proof. destruct w. unfold set_plots. simpl. by rewrite app_nil_r. Qed.

Lemma emits_ret {A} (a : A) : emits (ret a) (Ok a) [].
Proof. intros w. unfold ret. by rewrite set_plots_nil. Qed.

Lemma emits_lift {A} (r : result A) : emits (lift r) r [].
Proof. intros w. unfold lift. by rewrite set_plots_nil. Qed.

Lemma emits_raise {A} (e : exn) : emits (@raise A e) (Raise e) [].
Proof. intros w. unfold raise. by rewrite set_plots_nil. Qed.

Lemma emits_show (e : plot_event) : emits (show e) (Ok ()) [e].
Proof. intros w. reflexivity. Qed.

Lemma emits_bind_ok {A B} (c : M A) (k : A → M B) a e1 r e2 :
  emits c (Ok a) e1 → emits (k a) r e2 → emits (bind c k) r (e1 ++ e2).
Proof.
  intros Hc Hk w. unfold bind. rewrite Hc, Hk.
  unfold set_plots. simpl. by rewrite app_assoc.
Qed.

Lemma emits_bind_raise {A B} (c : M A) (k : A → M B) e e1 :
  emits c (Raise e) e1 → emits (bind c k) (Raise e) e1.
Proof. intros Hc w. unfold bind. by rewrite Hc. Qed.

Lemma oblivious_bind {A B} (c : M A) (k : A → M B) :
  oblivious c → (∀ a, oblivious (k a)) → oblivious (bind c k).
Proof.
  intros ([a|e] & e1 & Hc) Hk.
  - destruct (Hk a) as (r & e2 & Ha). exists r, (e1 ++ e2).
    by eapply emits_bind_ok.
  - exists (Raise e), e1. by apply emits_bind_raise.
Qed.

Lemma oblivious_ret {A} (a : A) : oblivious (ret a).
Proof. eexists _, _. apply emits_ret. Qed.

Lemma oblivious_lift {A} (r : result A) : oblivious (lift r).
Proof. eexists _, _. apply emits_lift. Qed.

Lemma oblivious_raise {A} (e : exn) : oblivious (@raise A e).
Proof. eexists _, _. apply emits_raise. Qed.

Lemma oblivious_show (e : plot_event) : oblivious (show e).
Proof. eexists _, _. apply emits_show. Qed.

Lemma emits_show_figure (e : plot_event) :
  plottable e = true → emits (show_figure e) (Ok ()) [e].
Proof. intros He. unfold show_figure. rewrite He. apply emits_show. Qed.

Lemma emits_show_figure_refused (e : plot_event) :
  plottable e = false → emits (show_figure e) (Raise ValueError) [].
Proof. intros He. unfold show_figure. rewrite He. apply emits_raise. Qed.

Lemma oblivious_show_figure (e : plot_event) : oblivious (show_figure e).
Proof.
  unfold show_figure. destruct (plottable e);
    [apply oblivious_show|apply oblivious_raise].
Qed.

Lemma oblivious_mapM_st {A B} (g : A → M B) (l : list A) :
  (∀ a, oblivious (g a)) → oblivious (mapM_st g l).
Proof.
  intros Hg. induction l as [|a l IH]; simpl.
  - apply oblivious_ret.
  - apply oblivious_bind; [apply Hg|]. intros b.
    apply oblivious_bind; [apply IH|]. intros bs. apply oblivious_ret.
Qed.


Lemma oblivious_call_f self alpha max_iter tol :
  oblivious (call_f self alpha max_iter tol).
Proof.
  unfold call_f. destruct (f self); [apply oblivious_ret|apply oblivious_raise].
Qed.

Ltac oblivious_step :=
  first
    [ apply oblivious_ret
    | apply oblivious_lift
    | apply oblivious_raise
    | apply oblivious_show
    | apply oblivious_show_figure
    | apply oblivious_call_f
    | apply oblivious_bind; [|intros ?]
    | match goal with
      | |- oblivious (if ?b then _ else _) => destruct b
      | |- oblivious (let (_, _) := ?p in _) => destruct p
      end ].

Lemma oblivious_plot_y_yhat y y_hat num_array :
  oblivious (plot_y_yhat y y_hat num_array).
Proof. unfold plot_y_yhat. repeat oblivious_step. Qed.

Lemma oblivious_fold_body self training_x training_y num_array len_data
    alpha max_iter tol plot_image i :
  oblivious (fold_body self training_x training_y num_array len_data
               alpha max_iter tol plot_image i).
Proof.
  unfold fold_body, plot_y_yhat_atom.
  repeat first [apply oblivious_plot_y_yhat | oblivious_step].
Qed.

Lemma oblivious_alpha_body self training_x training_y num_array len_data
    max_iter tol plot_image alpha :
  oblivious (alpha_body self training_x training_y num_array len_data
               max_iter tol plot_image alpha).
Proof.
  unfold alpha_body. apply oblivious_bind; [|intros; apply oblivious_ret].
  apply oblivious_mapM_st. intros i. apply oblivious_fold_body.
Qed.


(** ** The shape of a run of [cross_validation] *)

Lemma cross_validation_unfold self alpha_range max_iter tol plot_image seed
    w table :
  heap w !! training_data self = Some table →
  cross_validation self alpha_range max_iter tol plot_image seed w =
  sweep self (working_table seed table) alpha_range max_iter tol plot_image
    (after_shuffle seed table w).
Proof.
  intros Htable.
  unfold cross_validation, after_shuffle, working_table, rng_after.
  unfold bind at 1. unfold read at 1. rewrite Htable.
  unfold bind at 1. unfold alloc. cbn [heap set_heap].
  unfold bind at 1. unfold random_seed.
  unfold bind at 1. unfold random_shuffle, bind at 1, read at 1.
  cbn [heap set_heap set_rng rng].
  rewrite lookup_app_r, Nat.sub_diag by lia. cbn [lookup list_lookup].
  destruct (np_random_shuffle (np_random_seed seed) table) as [sh r] eqn:Hsh.
  cbn [fst snd heap set_heap set_rng rng mat_files files writable plots].
  rewrite ?Hsh.
  cbn [fst snd heap set_heap set_rng rng mat_files files writable plots].
  rewrite insert_app_r_alt, Nat.sub_diag by lia. cbn [insert list_insert].
  unfold set_rng, set_heap. cbn [heap rng mat_files files writable plots].
  unfold sweep. unfold bind at 1, read at 1. cbn [heap].
  rewrite lookup_app_r, Nat.sub_diag by lia. cbn [lookup list_lookup].
  reflexivity.
Qed.


Lemma oblivious_sweep self data alpha_range max_iter tol plot_image :
  oblivious (sweep self data alpha_range max_iter tol plot_image).
Proof.
  unfold sweep, plot_cross.
  do 2 (apply oblivious_bind; [apply oblivious_lift|intros ?]).
  apply oblivious_bind.
  - apply oblivious_mapM_st. intros x. apply oblivious_alpha_body.
  - intros errs. repeat oblivious_step.
Qed.


(** ** Arrays: indexing and broadcasting *)

Lemma column_ok j (m : matrix) :
  Forall (λ row, j < length row) m → column j m = Ok (entry j <$> m).
Proof.
  intros Hm. unfold column.
  assert (mapM (λ row : vector, row !! j) m = Some (entry j <$> m)) as ->; [|done].
  apply mapM_Some_2. induction Hm as [|row m Hrow _ IH]; [constructor|].
  rewrite fmap_cons. constructor; [|exact IH].
  unfold entry. destruct (lookup_lt_is_Some_2 row j Hrow) as [x ->]. done.
Qed.

Lemma take_rows_ok {A} (a : list A) (ids : list nat) :
  Forall (λ j, j < length a) ids →
  take_rows a ids = Ok (omap (λ j, a !! j) ids).
Proof.
  intros Hids. unfold take_rows.
  assert (mapM (λ j, a !! j) ids = Some (omap (λ j, a !! j) ids)) as ->; [|done].
  induction Hids as [|j ids Hj _ IH]; [done|].
  destruct (lookup_lt_is_Some_2 a j Hj) as [x Hx].
  cbn. rewrite Hx. cbn. rewrite IH. done.
Qed.

Lemma np_binop_same_length op (a b : vector) :
  length a = length b → np_binop op a b = Ok (zip_with op a b).
Proof.
  intros Hlen. unfold np_binop.
  destruct a as [|x [|x' a]], b as [|y [|y' b]]; try discriminate; try done.
  rewrite decide_True by done. done.
Qed.

Lemma np_binop_mismatch op (a b : vector) :
  length a ≠ length b → length a ≠ 1 → length b ≠ 1 →
  np_binop op a b = Raise ValueError.
Proof.
  intros Hlen Ha Hb. unfold np_binop.
  destruct a as [|x [|x' a]], b as [|y [|y' b]]; try done;
    by rewrite decide_False.
Qed.

(** ** Text written by [make_potential] *)

Lemma append_nil_r (s : string) : s +:+ "" = s.
Proof.
  induction s as [|c s IH]; [done|].
  change (String c (s +:+ "") = String c s). by f_equal.
Qed.

Lemma append_assoc (a b c : string) : (a +:+ b) +:+ c = a +:+ (b +:+ c).
Proof.
  induction a as [|x a IH]; [done|].
  change (String x ((a +:+ b) +:+ c) = String x (a +:+ (b +:+ c))).
  by f_equal.
Qed.

Lemma count_lines_app (a b : string) :
  count_lines (a +:+ b) = count_lines a + count_lines b.
Proof.
  induction a as [|x a IH]; [done|].
  change ((if Ascii.eqb x "010"%char then 1 else 0) + count_lines (a +:+ b) =
          (if Ascii.eqb x "010"%char then 1 else 0) + count_lines a
          + count_lines b).
  lia.
Qed.


(** The loop [for i in range(len(potential)): f.write(str(potential[i]) + "\n")],
    resumed at index [length pre]. *)
Lemma write_loop path (q pre : vector) old w :
  files w !! path = Some old →
  ∃ us,
    mapM_st (λ i,
      let* c := lift (getitem (Row (pre ++ q)) i) in
      file_write path (str c +:+ newline))
      (seq (length pre) (length q)) w =
    (Ok us, set_files (<[path := old +:+ potential_text q]> (files w)) w).
Proof.
  revert pre old w. induction q as [|c q IH]; intros pre old w Hold.
  - cbn [length seq mapM_st potential_text foldr]. unfold ret.
    exists []. f_equal.
    rewrite append_nil_r, insert_id by done. by destruct w.
  - specialize (IH (pre ++ [c])).
    rewrite length_app, Nat.add_1_r, <- app_assoc in IH. cbn [app] in IH.
    set (g := λ i : nat, bind _ _) in *.
    cbn [length seq mapM_st]. unfold bind at 1.
    assert (Hg : g (length pre) w =
              (Ok (), set_files (<[path := old +:+ (str c +:+ newline)]>
                                   (files w)) w)).
    { unfold g. cbn [getitem]. rewrite list_lookup_middle by done.
      rewrite bind_lift_ok. unfold file_write. by rewrite Hold. }
    rewrite Hg. set (w1 := set_files _ w).
    destruct (IH (old +:+ (str c +:+ newline)) w1) as [us IHr].
    { unfold w1. cbn [files set_files]. by rewrite lookup_insert_eq. }
    unfold bind. rewrite IHr. unfold ret. exists (() :: us). f_equal.
    unfold w1, set_files. cbn [files heap rng mat_files writable plots].
    rewrite insert_insert_eq. cbn [potential_text foldr].
    by rewrite append_assoc.
Qed.


(** ** The shape of a run of [make_potential] *)

(** From [with open(...)] on. *)
Lemma write_potential path (potential : coef_item) w :
  (let* _ := open_w path in
   let* n := lift (py_len potential) in
   let* _ := mapM_st (λ i,
               let* c := lift (getitem potential i) in
               file_write path (str c +:+ newline)) (seq 0 n) in
   ret ()) w =
  if decide (path ∈ writable w) then written path potential w
  else (Raise OSError, w).
Proof.
  unfold bind at 1, open_w. destruct (decide (path ∈ writable w)); [|done].
  set (w1 := set_files _ w).
  destruct potential as [c|v]; [reflexivity|].
  cbn [py_len written]. rewrite bind_lift_ok.
  destruct (write_loop path v [] "" w1) as [us Hr].
  { unfold w1. cbn [files set_files]. by rewrite lookup_insert_eq. }
  cbn [app length] in Hr. unfold bind at 1. rewrite Hr. unfold ret. f_equal.
  unfold w1, set_files. cbn [files heap rng mat_files writable plots].
  by rewrite insert_insert_eq.
Qed.

Lemma make_potential_run self output_dir alpha max_iter tol w X y :
  heap w !! training_x self = Some X →
  heap w !! training_y self = Some y →
  make_potential self output_dir alpha max_iter tol w =
  match potential_of self X y alpha max_iter tol with
  | Raise e => (Raise e, w)
  | Ok potential =>
      let path := os_path_join output_dir "re_potential" in
      if decide (path ∈ writable w) then written path potential w
      else (Raise OSError, w)
  end.
Proof.
  intros HX Hy. unfold make_potential, potential_of, call_f.
  destruct (f self) as [kind|]; [|reflexivity].
  rewrite bind_ret. unfold bind at 1, read at 1. rewrite HX.
  unfold bind at 1, read at 1. rewrite Hy.
  set (model := fit _ X (Y2 y)).
  destruct (getitem0 (coef_ model)) as [item|e]; [|reflexivity].
  rewrite bind_lift_ok.
  destruct (truthy (norm self)).
  - destruct (norms self) as [ns|]; [|reflexivity].
    destruct (divide_by item ns) as [potential|e]; [|reflexivity].
    rewrite bind_lift_ok. apply write_potential.
  - rewrite bind_ret. apply write_potential.
Qed.

Lemma shape_ncols (X : matrix) N C : shape X N C → 0 < N → ncols X = C.
Proof.
  intros [Hlen Hrows] HN. destruct X as [|row X]; simpl in *; [lia|].
  by inversion Hrows.
Qed.

Lemma shape_one_row (m : matrix) C :
  shape m 1 C → ∃ row, m = [row] ∧ length row = C.
Proof.
  intros [Hlen Hrows]. destruct m as [|row [|]]; try discriminate.
  exists row. split; [done|]. by inversion Hrows.
Qed.


(** ** Fold partition of [cross_validation] *)

(** C2. For a table of [N] rows, fold [i] of [cross_validation] validates on
    the indices congruent to [i] modulo 5; the five validation sets are
    pairwise disjoint, together they are exactly the indices [0..N-1], and
    each fold trains on the complement of its validation set.  (This holds
    for every [N], in particular for [N >= 5].) *)
Theorem cross_validation_folds_partition (N : nat) :
  (∀ i k, i < 5 → k ∈ validation_id i N ↔ k < N ∧ k `mod` 5 = i) ∧
  (∀ i j k, i < 5 → j < 5 → i ≠ j →
     k ∈ validation_id i N → k ∉ validation_id j N) ∧
  (∀ k, k < N ↔ ∃ i, i < 5 ∧ k ∈ validation_id i N) ∧
  (∀ i k, i < 5 → k ∈ train_id i N ↔ k < N ∧ k ∉ validation_id i N) ∧
  (∀ i, i < 5 → NoDup (validation_id i N)).
Proof.
  split; [|split; [|split; [|split]]].
  - intros i k Hi. by apply elem_of_validation_id.
  - intros i j k Hi Hj Hij Hki%elem_of_validation_id Hkj%elem_of_validation_id;
      lia.
  - intros k. split.
    + intros Hk. exists (k `mod` 5).
      pose proof (Nat.mod_upper_bound k 5). split; [lia|].
      apply elem_of_validation_id; lia.
    + intros (i & Hi & Hk). apply elem_of_validation_id in Hk; lia.
  - intros i k _. apply elem_of_train_id.
  - intros i _. rewrite validation_id_range. apply NoDup_py_range. lia.
Qed.

(** ** [make_potential] *)


(** C3 (the code's behaviour at the failing inputs).  With a normalization
    kind set and [D >= 2] descriptor columns, the fitted coefficient vector
    has [1 + D] entries and the stored scale vector [D]: the division raises
    [ValueError], and nothing is written. *)
Theorem make_potential_normalized_raises
    self output_dir alpha max_iter tol w X y kind N D ns m :
  f self = Some kind →
  truthy (norm self) = true →
  norms self = Some ns →
  length ns = D →
  heap w !! training_x self = Some X →
  heap w !! training_y self = Some y →
  shape X N (1 + D) →
  0 < N →
  coef_ (fit {| est_kind := kind; est_alpha := alpha;
                est_max_iter := max_iter; est_tol := tol;
                est_fit_intercept := false |} X (Y2 y)) = Coef2 m →
  shape m 1 (ncols X) →
  2 ≤ D →
  make_potential self output_dir alpha max_iter tol w = (Raise ValueError, w).
Proof.
  intros Hf Hnorm Hns Hlenns HX Hy HshapeX HN Hm Hcoef HD.
  destruct (shape_one_row _ _ Hcoef) as (potential & -> & Hlen).
  rewrite (shape_ncols X N (1 + D)) in Hlen by done.
  rewrite (make_potential_run _ _ _ _ _ _ X y) by done.
  unfold potential_of. rewrite Hf, Hm, Hnorm, Hns.
  cbn [getitem0 lookup list_lookup divide_by].
  rewrite np_binop_mismatch by lia. reflexivity.
Qed.


(** ** Frame and determinism of [cross_validation] *)

Lemma make_potential_agree self output_dir alpha max_iter tol w1 w2 X y :
  heap w1 !! training_x self = Some X →
  heap w1 !! training_y self = Some y →
  heap w2 !! training_x self = Some X →
  heap w2 !! training_y self = Some y →
  files w1 = files w2 →
  writable w1 = writable w2 →
  fst (make_potential self output_dir alpha max_iter tol w1) =
    fst (make_potential self output_dir alpha max_iter tol w2) ∧
  files (snd (make_potential self output_dir alpha max_iter tol w1)) =
    files (snd (make_potential self output_dir alpha max_iter tol w2)).
Proof.
  intros HX1 Hy1 HX2 Hy2 Hfiles Hwr.
  rewrite (make_potential_run _ _ _ _ _ w1 X y) by done.
  rewrite (make_potential_run _ _ _ _ _ w2 X y) by done.
  destruct (potential_of self X y alpha max_iter tol) as [p|e]; [|done].
  cbn zeta. rewrite Hwr.
  destruct (decide (_ ∈ writable w2)); [|done].
  destruct p; cbn [written fst snd files set_files]; by rewrite Hfiles.
Qed.

(** The world a run of [cross_validation] ends in: the working copy is the
    only new array, and only the generator and the figures change. *)
Lemma cross_validation_world self alpha_range max_iter tol plot_image seed
    w table :
  heap w !! training_data self = Some table →
  ∃ r evs,
    emits (sweep self (working_table seed table) alpha_range max_iter tol
             plot_image) r evs ∧
    cross_validation self alpha_range max_iter tol plot_image seed w =
      (r, set_plots (plots w ++ evs) (after_shuffle seed table w)).
Proof.
  intros Htable.
  destruct (oblivious_sweep self (working_table seed table) alpha_range
              max_iter tol plot_image) as (r & evs & Hr).
  exists r, evs. split; [done|].
  rewrite (cross_validation_unfold _ _ _ _ _ _ _ table) by done.
  exact (Hr (after_shuffle seed table w)).
Qed.

(** C10. [cross_validation] works on a copy of the stored table: whatever
    the sweep and however the call ends, the arrays behind [training_data],
    [training_x] and [training_y] are the same after the call as before it,
    so a following [make_potential] ends and writes exactly as it would have
    without the cross validation. *)
Theorem cross_validation_preserves_training_arrays
    self alpha_range max_iter tol plot_image seed w X y table :
  heap w !! training_x self = Some X →
  heap w !! training_y self = Some y →
  heap w !! training_data self = Some table →
  let w' :=
    snd (cross_validation self alpha_range max_iter tol plot_image seed w) in
  heap w' !! training_x self = Some X ∧
  heap w' !! training_y self = Some y ∧
  heap w' !! training_data self = Some table ∧
  ∀ output_dir alpha' max_iter' tol',
    fst (make_potential self output_dir alpha' max_iter' tol' w') =
      fst (make_potential self output_dir alpha' max_iter' tol' w) ∧
    files (snd (make_potential self output_dir alpha' max_iter' tol' w')) =
      files (snd (make_potential self output_dir alpha' max_iter' tol' w)).
Proof.
  intros HX Hy Htable w'.
  destruct (cross_validation_world self alpha_range max_iter tol plot_image
              seed w table Htable) as (r & evs & _ & Hrun).
  subst w'. rewrite Hrun. cbn [snd].
  assert (Hheap : ∀ l m, heap w !! l = Some m →
            heap (set_plots (plots w ++ evs) (after_shuffle seed table w)) !! l
              = Some m).
  { intros l m Hl. unfold after_shuffle.
    cbn [heap set_plots set_rng set_heap]. by apply lookup_app_l_Some. }
  split; [by apply Hheap|]. split; [by apply Hheap|].
  split; [by apply Hheap|].
  intros output_dir alpha' max_iter' tol'.
  apply (make_potential_agree _ _ _ _ _ _ _ X y); auto.
Qed.

(** C6. The shuffle of [cross_validation] depends on the seed and the
    stored table only: from any two worlds holding the same table (whatever
    the state of numpy's generator in them), the same seed gives the same
    shuffled working table, hence the same rows in every fold, and the same
    outcome; so does running the call a second time. *)
Theorem cross_validation_deterministic
    self alpha_range max_iter tol plot_image seed w1 w2 table :
  heap w1 !! training_data self = Some table →
  heap w2 !! training_data self = Some table →
  let run := cross_validation self alpha_range max_iter tol plot_image seed in
  last (heap (snd (run w1))) = Some (working_table seed table) ∧
  last (heap (snd (run w2))) = Some (working_table seed table) ∧
  fst (run w1) = fst (run w2) ∧
  last (heap (snd (run (snd (run w1))))) = Some (working_table seed table) ∧
  fst (run (snd (run w1))) = fst (run w1).
Proof.
  intros H1 H2 run. subst run.
  destruct (cross_validation_world self alpha_range max_iter tol plot_image
              seed w1 table H1) as (r1 & evs1 & Hr1 & Hrun1).
  destruct (cross_validation_world self alpha_range max_iter tol plot_image
              seed w2 table H2) as (r2 & evs2 & Hr2 & Hrun2).
  assert (r1 = r2) as <-.
  { specialize (Hr1 w1). specialize (Hr2 w1). rewrite Hr1 in Hr2.
    by inversion Hr2. }
  rewrite Hrun1, Hrun2. cbn [fst snd].
  set (w1' := set_plots (plots w1 ++ evs1) (after_shuffle seed table w1)).
  assert (H1' : heap w1' !! training_data self = Some table).
  { unfold w1', after_shuffle. cbn [heap set_plots set_rng set_heap].
    by apply lookup_app_l_Some. }
  destruct (cross_validation_world self alpha_range max_iter tol plot_image
              seed w1' table H1') as (r3 & evs3 & Hr3 & Hrun3).
  assert (r1 = r3) as <-.
  { specialize (Hr1 w1). specialize (Hr3 w1). rewrite Hr1 in Hr3.
    by inversion Hr3. }
  rewrite Hrun3. cbn [fst snd].
  unfold w1', after_shuffle. cbn [heap set_plots set_rng set_heap].
  rewrite !last_snoc. done.
Qed.

(** ** The empty sweep *)

(** [np.random.shuffle] permutes the rows of the array it is given. *)
Hypothesis np_random_shuffle_permutes :
  ∀ r m, fst (np_random_shuffle r m) ≡ₚ m.

Lemma working_table_rows (P : vector → Prop) seed table :
  Forall P table → Forall P (working_table seed table).
Proof.
  intros H. unfold working_table. by rewrite np_random_shuffle_permutes.
Qed.


(** C7. With an empty alpha sequence, [cross_validation] shuffles its copy,
    runs no fold, and then raises [ValueError] at [max(alpha_errors)]: no
    result is returned and no figure is shown. *)
Theorem cross_validation_empty_sweep_raises
    self max_iter tol plot_image seed w table :
  heap w !! training_data self = Some table →
  Forall (λ row, 2 ≤ length row) table →
  py_max [] = Raise ValueError ∧
  fst (cross_validation self [] max_iter tol plot_image seed w)
    = Raise ValueError ∧
  plots (snd (cross_validation self [] max_iter tol plot_image seed w))
    = plots w.
Proof.
  intros Htable Hrows. split; [reflexivity|].
  rewrite (cross_validation_unfold _ _ _ _ _ _ _ table) by done.
  unfold sweep.
  rewrite (column_ok 0), (column_ok 1).
  - rewrite !bind_lift_ok. cbn [mapM_st]. rewrite bind_ret.
    cbn [py_max]. unfold bind, lift. cbn [fst snd].
    unfold after_shuffle. cbn [plots set_rng set_heap]. done.
  - apply working_table_rows. eapply Forall_impl; [exact Hrows|].
    intros row ?. simpl in *. lia.
  - apply working_table_rows. eapply Forall_impl; [exact Hrows|].
    intros row ?. simpl in *. lia.
Qed.


(** ** The shape of a run of [__init__] *)

Lemma init_run data_dir fname norm w d X y :
  mat_files w !! data_dir = Some d →
  d !! "X" = Some X →
  d !! "y" = Some y →
  __init__ data_dir fname norm w =
  let h := heap w in
  if truthy norm then
    match normalize (default "" norm) (from_col1 X) with
    | Raise e => (Raise e, set_heap (h ++ [X]) w)
    | Ok (features, ns) =>
        let X' := assign_from_col1 X features in
        match concatenate_axis1 y X' with
        | Raise e => (Raise e, set_heap (h ++ [X'; y]) w)
        | Ok table =>
            (Ok {| data_dir := data_dir; f := MODELS !! fname;
                   training_x := length h; norm := norm; norms := Some ns;
                   training_y := S (length h);
                   training_data := S (S (length h)) |},
             set_heap (h ++ [X'; y; table]) w)
        end
    end
  else
    match concatenate_axis1 y X with
    | Raise e => (Raise e, set_heap (h ++ [X; y]) w)
    | Ok table =>
        (Ok {| data_dir := data_dir; f := MODELS !! fname;
               training_x := length h; norm := norm; norms := None;
               training_y := S (length h);
               training_data := S (S (length h)) |},
         set_heap (h ++ [X; y; table]) w)
    end.
Proof.
  intros Hd HX Hy. unfold __init__.
  unfold bind at 1, loadmat at 1. rewrite Hd.
  cbn [mapM_st]. rewrite HX, Hy. rewrite !bind_ret.
  cbn [default from_option id].
  unfold bind at 1, alloc at 1.
  destruct (truthy norm).
  - unfold bind at 1. unfold bind at 1, lift at 1.
    destruct (normalize (default "" norm) (from_col1 X)) as [[features ns]|e];
      [|reflexivity].
    unfold bind at 1, write at 1, ret at 1. cbn [heap set_heap].
    rewrite insert_app_r_alt, Nat.sub_diag by lia. cbn [insert list_insert].
    unfold bind at 1, alloc at 1. cbn [heap set_heap].
    unfold bind at 1, read at 1. cbn [heap set_heap].
    rewrite lookup_app_l by (rewrite !length_app; simpl; lia).
    rewrite lookup_app_r, Nat.sub_diag by lia. cbn [lookup list_lookup].
    unfold bind at 1, lift at 1.
    destruct (concatenate_axis1 y (assign_from_col1 X features)) as [table|e].
    + unfold bind, alloc, ret. cbn [heap set_heap].
      rewrite !length_app. cbn [length]. rewrite !Nat.add_1_r.
      rewrite <- !app_assoc. cbn [app].
      unfold set_heap. cbn [heap rng mat_files files writable plots].
      reflexivity.
    + rewrite <- !app_assoc. cbn [app].
      unfold set_heap. cbn [heap rng mat_files files writable plots].
      reflexivity.
  - rewrite bind_ret.
    unfold bind at 1, alloc at 1. cbn [heap set_heap].
    unfold bind at 1, read at 1. cbn [heap set_heap].
    rewrite lookup_app_l by (rewrite !length_app; simpl; lia).
    rewrite lookup_app_r, Nat.sub_diag by lia. cbn [lookup list_lookup].
    unfold bind at 1, lift at 1.
    destruct (concatenate_axis1 y X) as [table|e].
    + unfold bind, alloc, ret. cbn [heap set_heap].
      rewrite !length_app. cbn [length]. rewrite !Nat.add_1_r.
      rewrite <- !app_assoc. cbn [app].
      unfold set_heap. cbn [heap rng mat_files files writable plots].
      reflexivity.
    + rewrite <- !app_assoc. cbn [app].
      unfold set_heap. cbn [heap rng mat_files files writable plots].
      reflexivity.
Qed.

Lemma assign_normalized (X : matrix) (ns : vector) :
  assign_from_col1 X
    ((λ row : vector, zip_with PrimFloat.div row ns) <$> from_col1 X)
  = normalized_row ns <$> X.
Proof.
  unfold assign_from_col1, from_col1.
  rewrite <- list_fmap_compose, zip_with_fmap_r, zip_with_diag. done.
Qed.

Lemma length_columns (m : matrix) : length (columns m) = ncols m.
Proof. unfold columns. by rewrite length_fmap, length_seq. Qed.

Lemma ncols_from_col1 (X : matrix) N D :
  shape X N (1 + D) → 0 < N → ncols (from_col1 X) = D.
Proof.
  intros [Hlen Hrows] HN. destruct X as [|row X]; simpl in *; [lia|].
  inversion Hrows; subst. rewrite length_drop. lia.
Qed.

Lemma normalized_row_spec (ns row : vector) D :
  length row = 1 + D → length ns = D →
  length (normalized_row ns row) = 1 + D ∧
  normalized_row ns row !! 0 = row !! 0 ∧
  ∀ j x, row !! S j = Some x →
    ∃ s, ns !! j = Some s ∧
         normalized_row ns row !! S j = Some (PrimFloat.div x s).
Proof.
  intros Hrow Hns. destruct row as [|x0 row]; [discriminate|].
  unfold normalized_row. cbn [take drop app].
  rewrite take_0, drop_0. cbn [app].
  split; [|split].
  - cbn [length]. rewrite length_zip_with. simpl in Hrow. lia.
  - done.
  - intros j x Hx. simpl in Hx.
    assert (j < length ns) as Hj.
    { apply lookup_lt_Some in Hx. simpl in Hrow. lia. }
    destruct (lookup_lt_is_Some_2 ns j Hj) as [s Hs].
    exists s. split; [done|]. simpl.
    rewrite lookup_zip_with, Hx. simpl. by rewrite Hs.
Qed.

Lemma normalize_ok k (F : matrix) :
  k ∈ ["l1"; "l2"; "max"] →
  normalize k F =
    Ok ((λ row : vector,
           zip_with PrimFloat.div row (column_norm k <$> columns F)) <$> F,
        column_norm k <$> columns F).
Proof. intros Hk. unfold normalize. by rewrite decide_True. Qed.

Lemma supported_norm_truthy k :
  k ∈ ["l1"; "l2"; "max"] → truthy (Some k) = true.
Proof.
  intros Hk. repeat (apply elem_of_cons in Hk as [->|Hk]; [done|]).
  by apply elem_of_nil in Hk.
Qed.

(** ** Normalization at construction *)

(** C9. When a normalization kind ([l1], [l2] or [max]) is configured,
    [__init__] leaves column 0 of [X] untouched, replaces every entry of
    columns [1..D] by its quotient with the scale of its column under the
    chosen norm, and keeps exactly [D] scales (one per descriptor column) in
    [self.norms]; when the kind is [None], [training_x] is [X] unchanged and
    no scale vector is stored. *)
Theorem init_normalization data_dir fname norm w d X y N D :
  mat_files w !! data_dir = Some d →
  d !! "X" = Some X →
  d !! "y" = Some y →
  shape X N (1 + D) →
  length y = N →
  0 < N →
  (∀ k, norm = Some k → k ∈ ["l1"; "l2"; "max"] →
     ∃ self w' ns X',
       __init__ data_dir fname norm w = (Ok self, w') ∧
       norms self = Some ns ∧
       ns = column_norm k <$> columns (from_col1 X) ∧
       length ns = D ∧
       heap w' !! training_x self = Some X' ∧
       length X' = N ∧
       ∀ i row, X !! i = Some row →
         ∃ row', X' !! i = Some row' ∧
           length row' = 1 + D ∧
           row' !! 0 = row !! 0 ∧
           ∀ j x, row !! S j = Some x →
             ∃ s, ns !! j = Some s ∧ row' !! S j = Some (PrimFloat.div x s)) ∧
  (norm = None →
     ∃ self w',
       __init__ data_dir fname norm w = (Ok self, w') ∧
       norms self = None ∧
       heap w' !! training_x self = Some X).
Proof.
  intros Hd HX Hy [HlenX HrowsX] Hleny HN. split.
  - intros k -> Hk.
    rewrite (init_run _ _ _ _ d X y) by done.
    rewrite (supported_norm_truthy k Hk). cbn [default from_option id].
    rewrite (normalize_ok k _ Hk). cbn zeta.
    rewrite assign_normalized.
    set (ns := column_norm k <$> columns (from_col1 X)).
    assert (Hns : length ns = D).
    { unfold ns. rewrite length_fmap, length_columns.
      by apply (ncols_from_col1 X N D). }
    unfold concatenate_axis1.
    rewrite decide_True by (rewrite length_fmap; lia).
    eexists _, _, ns, (normalized_row ns <$> X).
    split; [reflexivity|]. cbn [norms training_x heap set_heap].
    split; [done|]. split; [done|]. split; [done|].
    split.
    { rewrite lookup_app_r, Nat.sub_diag by lia. done. }
    split; [by rewrite length_fmap|].
    intros i row Hi. exists (normalized_row ns row).
    split; [by rewrite list_lookup_fmap, Hi|].
    apply normalized_row_spec; [|done].
    rewrite Forall_forall in HrowsX. apply HrowsX.
    by eapply list_elem_of_lookup_2.
  - intros ->. rewrite (init_run _ _ _ _ d X y) by done.
    cbn [truthy]. cbn zeta. unfold concatenate_axis1.
    rewrite decide_True by lia.
    eexists _, _. split; [reflexivity|].
    cbn [norms training_x heap set_heap]. split; [done|].
    rewrite lookup_app_r, Nat.sub_diag by lia. done.
Qed.


(** ** Unknown model kinds *)

Lemma validation_id_lt i n : Forall (λ j, j < n) (validation_id i n).
Proof.
  apply Forall_forall. intros k Hk.
  rewrite validation_id_range in Hk. apply elem_of_py_range in Hk; lia.
Qed.

Lemma train_id_lt i n : Forall (λ j, j < n) (train_id i n).
Proof.
  apply Forall_forall. intros k Hk. apply elem_of_train_id in Hk. tauto.
Qed.

Lemma fold_body_unresolved self training_x training_y num_array n
    alpha max_iter tol plot_image i :
  f self = None →
  length training_x = n → length training_y = n → length num_array = n →
  emits (fold_body self training_x training_y num_array n
           alpha max_iter tol plot_image i) (Raise TypeError) [].
Proof.
  intros Hf Hx Hy Hn. unfold fold_body.
  rewrite !take_rows_ok
    by (rewrite ?Hx, ?Hy, ?Hn; apply validation_id_lt || apply train_id_lt).
  rewrite !bind_lift_ok. unfold call_f. rewrite Hf.
  apply emits_bind_raise, emits_raise.
Qed.

Lemma sweep_unresolved self data alpha alpha_range max_iter tol plot_image :
  f self = None →
  Forall (λ row, 2 ≤ length row) data →
  emits (sweep self data (alpha :: alpha_range) max_iter tol plot_image)
    (Raise TypeError) [].
Proof.
  intros Hf Hrows. unfold sweep.
  rewrite (column_ok 0), (column_ok 1)
    by (eapply Forall_impl; [exact Hrows|]; intros row ?; simpl in *; lia).
  rewrite !bind_lift_ok. apply emits_bind_raise.
  cbn [mapM_st]. apply emits_bind_raise.
  unfold alpha_body. apply emits_bind_raise.
  cbn [seq mapM_st]. apply emits_bind_raise.
  apply fold_body_unresolved; [done|..]; unfold from_col1;
    by rewrite length_fmap.
Qed.

(** The state [__init__] leaves behind on a well-shaped data file. *)
Lemma init_ok data_dir fname norm_kind w d X y N D :
  mat_files w !! data_dir = Some d →
  d !! "X" = Some X →
  d !! "y" = Some y →
  shape X N (1 + D) →
  shape y N 1 →
  (norm_kind = None ∨ ∃ k, norm_kind = Some k ∧ k ∈ ["l1"; "l2"; "max"]) →
  ∃ self X' ns,
    __init__ data_dir fname norm_kind w
      = (Ok self, set_heap (heap w ++ [X'; y; zip_with app y X']) w) ∧
    f self = MODELS !! fname ∧
    norm self = norm_kind ∧
    norms self = ns ∧
    training_x self = length (heap w) ∧
    training_y self = S (length (heap w)) ∧
    training_data self = S (S (length (heap w))) ∧
    length X' = N ∧
    Forall (λ row, 2 ≤ length row) (zip_with app y X').
Proof.
  intros Hd HX Hy [HlenX HrowsX] [Hleny Hrowsy] Hnorm.
  rewrite (init_run _ _ _ _ d X y) by done. cbn zeta.
  assert (Htable : ∀ X' : matrix,
            Forall (λ row : vector, 1 ≤ length row) X' →
            Forall (λ row : vector, 2 ≤ length row) (zip_with app y X')).
  { intros X' HX'. apply Forall_forall. intros row Hrow.
    apply list_elem_of_lookup in Hrow as [i Hi].
    apply lookup_zip_with_Some in Hi as (a & b & -> & Ha & Hb).
    rewrite length_app.
    rewrite Forall_forall in Hrowsy, HX'.
    rewrite (Hrowsy a) by (by eapply list_elem_of_lookup_2).
    specialize (HX' b (list_elem_of_lookup_2 _ _ _ Hb)). simpl in HX'. lia. }
  assert (HX1 : Forall (λ row : vector, 1 ≤ length row) X).
  { eapply Forall_impl; [exact HrowsX|]. intros row Hrow. simpl in *. lia. }
  destruct Hnorm as [->|(k & -> & Hk)].
  - cbn [truthy]. unfold concatenate_axis1. rewrite decide_True by lia.
    eexists _, X, None. split; [reflexivity|]. cbn.
    repeat split; try done. by apply Htable.
  - rewrite (supported_norm_truthy k Hk). cbn [default from_option id].
    rewrite (normalize_ok k _ Hk). rewrite assign_normalized.
    unfold concatenate_axis1.
    rewrite decide_True by (rewrite length_fmap; lia).
    eexists _, _, (Some _). split; [reflexivity|]. cbn.
    repeat split; try done; [by rewrite length_fmap|].
    apply Htable. apply Forall_fmap.
    eapply Forall_impl; [exact HX1|]. intros row Hrow. simpl in *.
    unfold normalized_row. rewrite length_app, length_take. lia.
Qed.


(** C8. A model kind outside [{LASSO, RIDGE}] does not make [__init__]
    fail: the trainer is built with [f = None].  The failure comes when a
    fitting routine calls it: [make_potential] raises [TypeError] at once,
    and so does [cross_validation] on reaching its first fold; neither
    writes a file. *)
Theorem unknown_model_kind_fails_at_fit data_dir fname norm_kind w d X y N D :
  fname ≠ "LASSO" →
  fname ≠ "RIDGE" →
  mat_files w !! data_dir = Some d →
  d !! "X" = Some X →
  d !! "y" = Some y →
  shape X N (1 + D) →
  shape y N 1 →
  (norm_kind = None ∨ ∃ k, norm_kind = Some k ∧ k ∈ ["l1"; "l2"; "max"]) →
  ∃ self w',
    __init__ data_dir fname norm_kind w = (Ok self, w') ∧
    f self = None ∧
    (∀ output_dir alpha max_iter tol,
       make_potential self output_dir alpha max_iter tol w'
         = (Raise TypeError, w')) ∧
    (∀ alpha alpha_range max_iter tol plot_image seed,
       fst (cross_validation self (alpha :: alpha_range) max_iter tol
              plot_image seed w') = Raise TypeError ∧
       files (snd (cross_validation self (alpha :: alpha_range) max_iter tol
                     plot_image seed w')) = files w').
Proof.
  intros HL HR Hd HX Hy HshX Hshy Hnorm.
  destruct (init_ok data_dir fname norm_kind w d X y N D)
    as (self & X' & ns & Hinit & Hf & _ & _ & Htx & Hty & Htd & HlenX' & Hrows);
    try done.
  assert (Hnone : f self = None).
  { rewrite Hf. unfold MODELS.
    rewrite lookup_insert_ne, lookup_singleton_ne by done. done. }
  eexists self, _. split; [exact Hinit|]. split; [exact Hnone|]. split.
  - intros output_dir alpha max_iter tol.
    unfold make_potential, call_f. rewrite Hnone. reflexivity.
  - intros alpha alpha_range max_iter tol plot_image seed.
    rewrite (cross_validation_unfold _ _ _ _ _ _ _ (zip_with app y X')).
    + rewrite (sweep_unresolved self _ alpha alpha_range max_iter tol
                 plot_image Hnone (working_table_rows _ seed _ Hrows)).
      done.
    + rewrite Htd. cbn [heap set_heap].
      rewrite lookup_app_r by lia.
      replace (S (S (length (heap w))) - length (heap w)) with 2 by lia.
      done.
Qed.


(** ** Per-atom errors, row by row *)

Lemma omap_lookup_fmap {A B} (g : A → B) (l : list A) (ids : list nat) :
  omap (λ j, (g <$> l) !! j) ids = g <$> omap (λ j, l !! j) ids.
Proof.
  induction ids as [|j ids IH]; [done|].
  cbn [omap list_omap]. rewrite list_lookup_fmap.
  destruct (l !! j); cbn; by rewrite <- IH.
Qed.

Lemma per_atom_error_rows (m : fitted) (rows : matrix) :
  per_atom_error (entry 0 <$> rows) (predict m (from_col1 rows))
    (entry 1 <$> rows) = Ok (split_error m rows).
Proof.
  unfold per_atom_error, predict, from_col1, np_absolute.
  rewrite np_binop_same_length by (by rewrite !length_fmap).
  rewrite <- list_fmap_compose, zip_with_fmap_l, zip_with_fmap_r, zip_with_diag.
  rewrite <- list_fmap_compose.
  rewrite np_binop_same_length by (by rewrite !length_fmap).
  rewrite zip_with_fmap_l, zip_with_fmap_r, zip_with_diag.
  reflexivity.
Qed.

Lemma emits_mapM_st_events {A B} (g : A → M B) (v : A → B)
    (ev : A → list plot_event) (l : list A) :
  (∀ a, a ∈ l → emits (g a) (Ok (v a)) (ev a)) →
  emits (mapM_st g l) (Ok (v <$> l)) (concat (ev <$> l)).
Proof.
  induction l as [|a l IH]; intros Hg.
  - apply emits_ret.
  - cbn [mapM_st]. rewrite !fmap_cons. cbn [concat].
    rewrite <- (app_nil_r (concat (ev <$> l))).
    eapply emits_bind_ok; [apply Hg; constructor|].
    eapply emits_bind_ok; [apply IH; intros; apply Hg; by constructor|].
    apply emits_ret.
Qed.

Lemma forallb_concat {A} (p : A → bool) (ls : list (list A)) :
  forallb p (concat ls) = true ↔ ∀ l, l ∈ ls → forallb p l = true.
Proof.
  induction ls as [|l ls IH]; cbn [concat].
  - split; [|done]. intros _ l Hl. inversion Hl.
  - rewrite forallb_app, andb_true_iff, IH. split.
    + intros [Hl Hls] l' Hl'. inversion Hl'; subst; auto.
    + intros H. split; [apply H; constructor|].
      intros l' Hl'. apply H. by constructor.
Qed.

Ltac emits_run :=
  intros [];
  unfold bind, show, ret, set_plots;
  cbn [heap rng mat_files files writable plots fst snd app];
  rewrite <- ?app_assoc, ?app_nil_r; reflexivity.

(** One fold of [cross_validation] computes the per-atom errors of its
    validation and training rows, and shows its figures when the libraries
    accept them. *)
Lemma fold_body_figures self kind data alpha max_iter tol plot_image i :
  f self = Some kind →
  forallb plottable (fold_figures kind data alpha max_iter tol plot_image i)
    = true →
  emits (fold_body self (from_col1 data) (entry 0 <$> data)
           (entry 1 <$> data) (length data)
           alpha max_iter tol plot_image i)
    (Ok (validation_error kind data alpha max_iter tol i,
         training_error kind data alpha max_iter tol i))
    (fold_figures kind data alpha max_iter tol plot_image i).
Proof.
  intros Hf Hplot. unfold fold_body, from_col1.
  rewrite !take_rows_ok
    by (rewrite length_fmap; apply validation_id_lt || apply train_id_lt).
  rewrite !bind_lift_ok, !omap_lookup_fmap.
  fold (rows_at data (train_id i (length data))).
  fold (rows_at data (validation_id i (length data))).
  unfold fold_figures, per_atom_pair, per_sample_pair in *.
  cbn [fst snd] in *.
  set (train := rows_at data (train_id i (length data))) in *.
  set (val := rows_at data (validation_id i (length data))) in *.
  unfold call_f. rewrite Hf, bind_ret.
  fold (from_col1 train). fold (from_col1 val).
  change (fit _ (from_col1 train) (Y1 (entry 0 <$> train)))
    with (fold_model kind data alpha max_iter tol i).
  set (m := fold_model kind data alpha max_iter tol i) in *.
  rewrite !per_atom_error_rows, !bind_lift_ok.
  fold (validation_error kind data alpha max_iter tol i).
  fold (training_error kind data alpha max_iter tol i).
  unfold plot_y_yhat_atom, plot_y_yhat.
  rewrite !np_binop_same_length
    by (unfold predict, from_col1; by rewrite !length_fmap).
  rewrite !bind_lift_ok.
  rewrite !np_binop_same_length
    by (unfold predict, from_col1;
        rewrite ?length_zip_with, !length_fmap; lia).
  rewrite !bind_lift_ok.
  unfold predict, from_col1, energy, atom_count in *.
  rewrite <- !list_fmap_compose.
  repeat progress rewrite ?zip_with_fmap_l, ?zip_with_fmap_r, ?zip_with_diag.
  destruct (bool_decide (i = 0) && bool_decide (plot_image = Some "atom"));
    destruct (bool_decide (i = 0) && bool_decide (plot_image = Some "sample"));
    cbn [forallb app] in Hplot;
    repeat match type of Hplot with
           | (plottable _ && _) = true =>
               apply andb_true_iff in Hplot as [? Hplot]
           end;
    unfold show_figure;
    repeat match goal with
           | |- context [plottable ?e] =>
               replace (plottable e) with true by (symmetry; assumption)
           end;
    emits_run.
Qed.

Lemma fold_figures_later kind data alpha max_iter tol plot_image i :
  i ≠ 0 → fold_figures kind data alpha max_iter tol plot_image i = [].
Proof.
  intros Hi. unfold fold_figures. by rewrite (bool_decide_eq_false_2 (i = 0)).
Qed.

Lemma alpha_body_figures self kind data max_iter tol plot_image alpha :
  f self = Some kind →
  forallb plottable (fold_figures kind data alpha max_iter tol plot_image 0)
    = true →
  emits (alpha_body self (from_col1 data) (entry 0 <$> data)
           (entry 1 <$> data) (length data) max_iter tol plot_image alpha)
    (Ok (mean_validation_error kind data max_iter tol alpha))
    (fold_figures kind data alpha max_iter tol plot_image 0).
Proof.
  intros Hf Hplot. unfold alpha_body.
  replace (fold_figures kind data alpha max_iter tol plot_image 0)
    with (concat ((λ i, fold_figures kind data alpha max_iter tol plot_image i)
                    <$> seq 0 5) ++ []).
  - eapply emits_bind_ok.
    { apply (emits_mapM_st_events _
               (λ i, (validation_error kind data alpha max_iter tol i,
                      training_error kind data alpha max_iter tol i))
               (λ i, fold_figures kind data alpha max_iter tol plot_image i)).
      intros i _. apply fold_body_figures; [done|].
      destruct i as [|i]; [done|]. by rewrite fold_figures_later. }
    apply emits_ret.
  - rewrite app_nil_r. cbn [seq fmap list_fmap concat].
    rewrite (fold_figures_later kind data alpha max_iter tol plot_image 1),
      (fold_figures_later kind data alpha max_iter tol plot_image 2),
      (fold_figures_later kind data alpha max_iter tol plot_image 3),
      (fold_figures_later kind data alpha max_iter tol plot_image 4) by done.
    by rewrite !app_nil_r.
Qed.

(** The sweep returns the mean validation errors and shows its figures,
    when the libraries accept them. *)
Lemma sweep_figures_emitted self kind data alpha_range max_iter tol plot_image :
  f self = Some kind →
  Forall (λ row, 2 ≤ length row) data →
  alpha_range ≠ [] →
  forallb plottable
    (sweep_figures kind data alpha_range max_iter tol plot_image) = true →
  emits (sweep self data alpha_range max_iter tol plot_image)
    (Ok (mean_validation_error kind data max_iter tol <$> alpha_range))
    (sweep_figures kind data alpha_range max_iter tol plot_image).
Proof.
  intros Hf Hrows Hne Hplot. unfold sweep, sweep_figures in *.
  rewrite forallb_app in Hplot. apply andb_true_iff in Hplot as [Hfolds Hcurve].
  rewrite forallb_concat in Hfolds.
  rewrite (column_ok 0), (column_ok 1)
    by (eapply Forall_impl; [exact Hrows|]; intros row ?; simpl in *; lia).
  rewrite !bind_lift_ok.
  eapply emits_bind_ok.
  { apply (emits_mapM_st_events _
             (mean_validation_error kind data max_iter tol)
             (λ alpha, fold_figures kind data alpha max_iter tol plot_image 0)).
    intros alpha Halpha. apply alpha_body_figures; [done|].
    apply Hfolds. apply list_elem_of_fmap. by exists alpha. }
  set (errors := mean_validation_error kind data max_iter tol <$> alpha_range)
    in *.
  assert (∃ e es, errors = e :: es) as (e & es & Herr).
  { unfold errors. destruct alpha_range; [done|]. rewrite fmap_cons. eauto. }
  rewrite Herr in *. cbn [py_max py_min] in *. rewrite !bind_lift_ok.
  cbn [forallb] in Hcurve. rewrite andb_true_r in Hcurve.
  unfold plot_cross, show_figure. rewrite Hcurve. emits_run.
Qed.

(** The sweep on values the error curve cannot show: [plt.ylim] raises
    [ValueError] after every fold was run, and the curve is not shown. *)
Lemma sweep_curve_refused self kind data alpha_range max_iter tol plot_image :
  f self = Some kind →
  Forall (λ row, 2 ≤ length row) data →
  alpha_range ≠ [] →
  let errors := mean_validation_error kind data max_iter tol <$> alpha_range in
  forallb plottable
    (concat ((λ alpha, fold_figures kind data alpha max_iter tol plot_image 0)
               <$> alpha_range)) = true →
  (∀ max_e min_e, py_max errors = Ok max_e → py_min errors = Ok min_e →
     PrimFloat.is_finite (PrimFloat.sub min_e (PrimFloat.sub max_e min_e))
     && PrimFloat.is_finite (PrimFloat.add max_e (PrimFloat.sub max_e min_e))
     = false) →
  emits (sweep self data alpha_range max_iter tol plot_image)
    (Raise ValueError)
    (concat ((λ alpha, fold_figures kind data alpha max_iter tol plot_image 0)
               <$> alpha_range)).
Proof.
  intros Hf Hrows Hne errors Hfolds Hcurve. unfold sweep.
  rewrite forallb_concat in Hfolds.
  rewrite (column_ok 0), (column_ok 1)
    by (eapply Forall_impl; [exact Hrows|]; intros row ?; simpl in *; lia).
  rewrite !bind_lift_ok.
  rewrite <- (app_nil_r (concat _)).
  eapply emits_bind_ok.
  { apply (emits_mapM_st_events _
             (mean_validation_error kind data max_iter tol)
             (λ alpha, fold_figures kind data alpha max_iter tol plot_image 0)).
    intros alpha Halpha. apply alpha_body_figures; [done|].
    apply Hfolds. apply list_elem_of_fmap. by exists alpha. }
  fold errors.
  assert (∃ e es, errors = e :: es) as (e & es & Herr).
  { unfold errors. destruct alpha_range; [done|]. rewrite fmap_cons. eauto. }
  rewrite Herr in *. cbn [py_max py_min] in *. rewrite !bind_lift_ok.
  unfold plot_cross, show_figure. cbn [plottable].
  rewrite (Hcurve _ _ eq_refl eq_refl).
  apply emits_bind_raise, emits_raise.
Qed.

(** ** The result of the sweep *)

(** C5. For a non-empty alpha sequence, on a trainer with a resolved model
    kind and a table of at least 5 rows (the dataset invariant), with a seed
    numpy accepts and values the plotting functions accept (finite points
    for the scatter plots of fold 0, finite limits for the error curve),
    [cross_validation] returns one value per alpha, in the order of the input:
    the [k]-th value is the mean ([np.mean]) over folds [0..4] of the fold's
    validation error at the [k]-th alpha, that error being the mean
    ([np.average]) over the fold's validation rows of
    [|energy - prediction| / atom_count] for the model fitted on the fold's
    training rows. *)
Theorem cross_validation_returns_mean_errors
    self kind alpha_range max_iter tol plot_image seed w table :
  f self = Some kind →
  heap w !! training_data self = Some table →
  Forall (λ row, 2 ≤ length row) table →
  5 ≤ length table →
  valid_seed seed →
  alpha_range ≠ [] →
  forallb plottable
    (sweep_figures kind (working_table seed table) alpha_range max_iter tol
       plot_image) = true →
  ∃ errors,
    fst (cross_validation self alpha_range max_iter tol plot_image seed w)
      = Ok errors ∧
    length errors = length alpha_range ∧
    ∀ k alpha, alpha_range !! k = Some alpha →
      errors !! k =
        Some (np_mean
                ((λ i, validation_error kind (working_table seed table)
                         alpha max_iter tol i) <$> seq 0 5)).
Proof.
  intros Hf Htable Hrows _ _ Hne Hplot.
  rewrite (cross_validation_unfold _ _ _ _ _ _ _ table) by done.
  rewrite (sweep_figures_emitted self kind (working_table seed table)
             alpha_range max_iter tol plot_image Hf
             (working_table_rows _ seed _ Hrows) Hne Hplot).
  cbn [fst].
  eexists. split; [reflexivity|]. split; [by rewrite length_fmap|].
  intros k alpha Hk. by rewrite list_lookup_fmap, Hk.
Qed.


(** ** Floating-point facts *)

















(** ** Exact fits *)








(** ** Further properties of [make_potential] *)

Lemma make_potential_cases self output_dir alpha max_iter tol w :
  make_potential self output_dir alpha max_iter tol w =
  match f self with
  | None => (Raise TypeError, w)
  | Some _ =>
      match heap w !! training_x self, heap w !! training_y self with
      | Some X, Some y =>
          match potential_of self X y alpha max_iter tol with
          | Raise e => (Raise e, w)
          | Ok potential =>
              if decide (os_path_join output_dir "re_potential" ∈ writable w)
              then written (os_path_join output_dir "re_potential")
                     potential w
              else (Raise OSError, w)
          end
      | _, _ => (Raise AttributeError, w)
      end
  end.
Proof.
  destruct (heap w !! training_x self) as [X|] eqn:HX;
    [destruct (heap w !! training_y self) as [y|] eqn:Hy|].
  - rewrite (make_potential_run _ _ _ _ _ _ X y HX Hy).
    unfold potential_of. destruct (f self); reflexivity.
  - unfold make_potential, call_f. destruct (f self); [|reflexivity].
    rewrite bind_ret. unfold bind at 1, read at 1. rewrite HX.
    unfold bind at 1, read at 1. rewrite Hy. reflexivity.
  - unfold make_potential, call_f. destruct (f self); [|reflexivity].
    rewrite bind_ret. unfold bind at 1, read at 1. rewrite HX. reflexivity.
Qed.

Lemma make_potential_heap self output_dir alpha max_iter tol w :
  heap (snd (make_potential self output_dir alpha max_iter tol w)) = heap w.
Proof.
  rewrite make_potential_cases.
  destruct (f self); [|done].
  destruct (heap w !! training_x self); [|done].
  destruct (heap w !! training_y self); [|done].
  destruct (potential_of _ _ _ _ _ _) as [[c|v]|e]; [| |done];
    by destruct (decide _).
Qed.

(** X1. [make_potential] touches nothing but the one file
    [<output_dir>/re_potential]: the arrays, the generator, the figures, the
    data files and every other text file are as before.  When it raises, the
    world is unchanged altogether, with one exception: a [TypeError] raised
    at [len(potential)] for a scalar [coef_[0]] comes after the file was
    opened for writing, and leaves that file empty. *)
Theorem make_potential_frame self output_dir alpha max_iter tol w :
  let w' := snd (make_potential self output_dir alpha max_iter tol w) in
  let path := os_path_join output_dir "re_potential" in
  heap w' = heap w ∧
  rng w' = rng w ∧
  plots w' = plots w ∧
  mat_files w' = mat_files w ∧
  writable w' = writable w ∧
  (∀ other, other ≠ path → files w' !! other = files w !! other) ∧
  (∀ e, fst (make_potential self output_dir alpha max_iter tol w) = Raise e →
     w' = w ∨
     (e = TypeError ∧ path ∈ writable w ∧
      w' = set_files (<[path := ""]> (files w)) w)).
Proof.
  cbn zeta. rewrite make_potential_cases.
  destruct (f self); [|by repeat split; try done; left].
  destruct (heap w !! training_x self); [|by repeat split; try done; left].
  destruct (heap w !! training_y self); [|by repeat split; try done; left].
  destruct (potential_of _ _ _ _ _ _) as [[c|v]|e];
    [| |by repeat split; try done; left].
  - destruct (decide _); [|by repeat split; try done; left].
    cbn [written fst snd heap rng plots mat_files writable files set_files].
    repeat split; try done.
    + intros other Hother. by rewrite lookup_insert_ne.
    + intros e' [= <-]. by right.
  - destruct (decide _); [|by repeat split; try done; left].
    cbn [written fst snd heap rng plots mat_files writable files set_files].
    repeat split; try done.
    intros other Hother. by rewrite lookup_insert_ne.
Qed.

(** X2. [make_potential] is idempotent: a second call with the same
    arguments ends as the first did and leaves the world the first one left
    (the file is truncated on opening, not appended to). *)
Theorem make_potential_idempotent self output_dir alpha max_iter tol w :
  make_potential self output_dir alpha max_iter tol
    (snd (make_potential self output_dir alpha max_iter tol w))
  = make_potential self output_dir alpha max_iter tol w.
Proof.
  rewrite (make_potential_cases _ _ _ _ _ w).
  destruct (f self) as [kind|] eqn:Hf;
    [|by (cbn [snd]; rewrite make_potential_cases, Hf)].
  destruct (heap w !! training_x self) as [X|] eqn:HX;
    [|by (cbn [snd]; rewrite make_potential_cases, Hf, HX)].
  destruct (heap w !! training_y self) as [y|] eqn:Hy;
    [|by (cbn [snd]; rewrite make_potential_cases, Hf, HX, Hy)].
  destruct (potential_of self X y alpha max_iter tol) as [p|e] eqn:Hp;
    [|by (cbn [snd]; rewrite make_potential_cases, Hf, HX, Hy, Hp)].
  destruct (decide (os_path_join output_dir "re_potential" ∈ writable w))
    as [Hin|Hout].
  - rewrite make_potential_cases, Hf.
    destruct p as [c|v];
      cbn [written snd heap set_files writable files]; rewrite HX, Hy, Hp;
      rewrite decide_True by done;
      unfold written, set_files;
      cbn [heap rng mat_files files writable plots];
      by rewrite insert_insert_eq.
  - cbn [snd]. rewrite make_potential_cases, Hf, HX, Hy, Hp.
    by rewrite decide_False.
Qed.

(** X3. With a normalization kind set, what [make_potential] writes depends
    on the layout of [coef_].  For a two-dimensional [coef_] (RIDGE) and
    exactly one descriptor column, the single stored scale is broadcast: the
    call completes and writes two lines, the atom-count coefficient and the
    descriptor coefficient both divided by that scale.  For a
    one-dimensional [coef_] (LASSO), [coef_[0]] is the scalar atom-count
    coefficient: the call completes and writes one line per stored scale,
    that one coefficient divided by each scale in turn; the descriptor
    coefficients are not written. *)
Theorem make_potential_one_descriptor_broadcast
    self output_dir alpha max_iter tol w X y kind ns :
  f self = Some kind →
  truthy (norm self) = true →
  norms self = Some ns →
  heap w !! training_x self = Some X →
  heap w !! training_y self = Some y →
  os_path_join output_dir "re_potential" ∈ writable w →
  let model := fit {| est_kind := kind; est_alpha := alpha;
                      est_max_iter := max_iter; est_tol := tol;
                      est_fit_intercept := false |} X (Y2 y) in
  let path := os_path_join output_dir "re_potential" in
  (∀ s c0 c1, ns = [s] → coef_ model = Coef2 [[c0; c1]] →
     make_potential self output_dir alpha max_iter tol w =
       (Ok (),
        set_files
          (<[path := potential_text [PrimFloat.div c0 s; PrimFloat.div c1 s]]>
             (files w)) w)) ∧
  (∀ v c0, coef_ model = Coef1 v → v !! 0 = Some c0 →
     make_potential self output_dir alpha max_iter tol w =
       (Ok (),
        set_files
          (<[path := potential_text ((λ s, PrimFloat.div c0 s) <$> ns)]>
             (files w)) w)).
Proof.
  intros Hf Hnorm Hns HX Hy Hpath model path.
  rewrite make_potential_cases, Hf, HX, Hy.
  unfold potential_of. rewrite Hf, Hnorm, Hns. fold model. fold path.
  split.
  - intros s c0 c1 -> ->.
    cbn [getitem0 divide_by lookup list_lookup np_binop fmap list_fmap].
    by rewrite decide_True.
  - intros v c0 -> Hc0. cbn [getitem0]. rewrite Hc0. cbn [divide_by].
    by rewrite decide_True.
Qed.

Lemma append_line_inj (a b r r' : string) :
  count_lines a = 0 → count_lines b = 0 →
  a +:+ newline +:+ r = b +:+ newline +:+ r' → a = b ∧ r = r'.
Proof.
  revert b. induction a as [|x a IH]; intros [|y b] Ha Hb Heq.
  - cbn in Heq. by inversion Heq.
  - exfalso. cbn in Heq. inversion Heq as [[Hy Hr]]. subst y.
    cbn in Hb. discriminate.
  - exfalso. cbn in Heq. inversion Heq as [[Hx Hr]]. subst x.
    cbn in Ha. discriminate.
  - change (String x (a +:+ newline +:+ r) = String y (b +:+ newline +:+ r'))
      in Heq.
    inversion Heq as [[Hxy Hr]]. subst y.
    cbn in Ha, Hb. destruct (Ascii.eqb x "010"); [discriminate|].
    destruct (IH b Ha Hb Hr) as [-> ->]. done.
Qed.

(** X4. The potential file determines the coefficients as printed: when
    [str] never prints a line break, two coefficient vectors that give the
    same file text have the same printed coefficients, line for line (lines
    cannot run together or split). *)
Theorem potential_text_inj (p q : vector) :
  (∀ c, count_lines (str c) = 0) →
  potential_text p = potential_text q →
  str <$> p = str <$> q.
Proof.
  intros Hstr. revert q. induction p as [|c p IH]; intros [|d q] Heq.
  - done.
  - exfalso. cbn [potential_text foldr] in Heq.
    apply (f_equal count_lines) in Heq.
    rewrite !count_lines_app in Heq. cbn in Heq. lia.
  - exfalso. cbn [potential_text foldr] in Heq.
    apply (f_equal count_lines) in Heq.
    rewrite !count_lines_app in Heq. cbn in Heq. lia.
  - cbn [potential_text foldr] in Heq.
    fold (potential_text p) in Heq. fold (potential_text q) in Heq.
    rewrite !append_assoc in Heq.
    apply append_line_inj in Heq as [Hcd Hpq]; [|done|done].
    rewrite !fmap_cons, Hcd. f_equal. by apply IH.
Qed.


(** ** Further properties of [__init__] *)

Lemma init_no_file data_dir fname norm_kind w :
  mat_files w !! data_dir = None →
  __init__ data_dir fname norm_kind w = (Raise OSError, w).
Proof.
  intros Hd. unfold __init__, bind at 1, loadmat at 1. by rewrite Hd.
Qed.

Lemma init_no_X data_dir fname norm_kind w d :
  mat_files w !! data_dir = Some d →
  d !! "X" = None →
  __init__ data_dir fname norm_kind w = (Raise (KeyError "X"), w).
Proof.
  intros Hd HX. unfold __init__, bind at 1, loadmat at 1. rewrite Hd.
  cbn [mapM_st]. by rewrite HX.
Qed.

Lemma init_no_y data_dir fname norm_kind w d :
  mat_files w !! data_dir = Some d →
  is_Some (d !! "X") →
  d !! "y" = None →
  __init__ data_dir fname norm_kind w = (Raise (KeyError "y"), w).
Proof.
  intros Hd [X HX] Hy. unfold __init__, bind at 1, loadmat at 1.
  rewrite Hd. cbn [mapM_st]. by rewrite HX, Hy.
Qed.

(** X5. [__init__] fails early on a missing input: a missing data file is an
    [OSError], a file without ["X"] a [KeyError] on ["X"], a file with ["X"]
    but without ["y"] a [KeyError] on ["y"]; in each case nothing has been
    allocated or changed. *)
Theorem init_missing_input data_dir fname norm_kind w :
  (mat_files w !! data_dir = None →
   __init__ data_dir fname norm_kind w = (Raise OSError, w)) ∧
  (∀ d, mat_files w !! data_dir = Some d → d !! "X" = None →
   __init__ data_dir fname norm_kind w = (Raise (KeyError "X"), w)) ∧
  (∀ d, mat_files w !! data_dir = Some d → is_Some (d !! "X") →
   d !! "y" = None →
   __init__ data_dir fname norm_kind w = (Raise (KeyError "y"), w)).
Proof.
  split; [|split].
  - apply init_no_file.
  - intros d. apply init_no_X.
  - intros d. apply init_no_y.
Qed.

(** X6. When ["X"] and ["y"] do not have the same number of rows,
    [__init__] raises [ValueError] (from [np.concatenate]) and returns no
    trainer, whether or not a supported norm is configured. *)
Theorem init_row_count_mismatch data_dir fname norm_kind w d X y :
  mat_files w !! data_dir = Some d →
  d !! "X" = Some X →
  d !! "y" = Some y →
  length y ≠ length X →
  (norm_kind = None ∨ ∃ k, norm_kind = Some k ∧ k ∈ ["l1"; "l2"; "max"]) →
  fst (__init__ data_dir fname norm_kind w) = Raise ValueError.
Proof.
  intros Hd HX Hy Hlen Hnorm.
  rewrite (init_run _ _ _ _ d X y) by done. cbn zeta.
  destruct Hnorm as [->|(k & -> & Hk)].
  - cbn [truthy]. unfold concatenate_axis1. by rewrite decide_False.
  - rewrite (supported_norm_truthy k Hk). cbn [default from_option id].
    rewrite (normalize_ok k _ Hk), assign_normalized.
    unfold concatenate_axis1. rewrite decide_False; [done|].
    by rewrite length_fmap.
Qed.

(** X7. An empty string as norm is falsy in [if self.norm:], so it
    disables normalization exactly as [None] does: the same arrays are
    stored, no scales are kept, and only the recorded [norm] differs. *)
Theorem init_empty_norm_is_no_norm data_dir fname w d X y :
  mat_files w !! data_dir = Some d →
  d !! "X" = Some X →
  d !! "y" = Some y →
  length y = length X →
  ∃ self w',
    __init__ data_dir fname None w = (Ok self, w') ∧
    __init__ data_dir fname (Some "") w =
      (Ok {| data_dir := Trainer.data_dir self; f := f self;
             training_x := training_x self; norm := Some "";
             norms := None; training_y := training_y self;
             training_data := training_data self |}, w') ∧
    norms self = None ∧
    heap w' !! training_x self = Some X.
Proof.
  intros Hd HX Hy Hlen.
  rewrite !(init_run _ _ _ _ d X y) by done. cbn [truthy]. cbn zeta.
  unfold concatenate_axis1. rewrite decide_True by done.
  eexists _, _. split; [reflexivity|]. cbn.
  split; [reflexivity|]. split; [reflexivity|].
  rewrite lookup_app_r, Nat.sub_diag by lia. done.
Qed.

(** X8. Whatever its inputs, when [__init__] returns a trainer the trainer is
    consistent: its three arrays are freshly allocated after the arrays that
    were there, the table is [training_y] and [training_x] side by side (so
    column 0 is the energy and column 1 the atom count), the recorded model
    is [MODELS.get(f)]; files, figures and the generator are untouched. *)
Theorem init_consistent data_dir fname norm_kind w self w' :
  __init__ data_dir fname norm_kind w = (Ok self, w') →
  consistent self w' ∧
  f self = MODELS !! fname ∧
  norm self = norm_kind ∧
  training_x self = length (heap w) ∧
  training_y self = S (length (heap w)) ∧
  training_data self = S (S (length (heap w))) ∧
  (∃ X y table, heap w' = heap w ++ [X; y; table]) ∧
  files w' = files w ∧ plots w' = plots w ∧ rng w' = rng w ∧
  mat_files w' = mat_files w ∧ writable w' = writable w.
Proof.
  intros Hinit.
  destruct (mat_files w !! data_dir) as [d|] eqn:Hd;
    [|rewrite init_no_file in Hinit by done; discriminate].
  destruct (d !! "X") as [X|] eqn:HX;
    [|rewrite (init_no_X _ _ _ _ d) in Hinit by done; discriminate].
  destruct (d !! "y") as [y|] eqn:Hy;
    [|rewrite (init_no_y _ _ _ _ d) in Hinit by eauto; discriminate].
  rewrite (init_run _ _ _ _ d X y) in Hinit by done. cbn zeta in Hinit.
  assert (Hgen : ∀ (X' : matrix) ns,
    match concatenate_axis1 y X' with
    | Ok table =>
        (Ok {| data_dir := data_dir; f := MODELS !! fname;
               training_x := length (heap w); norm := norm_kind; norms := ns;
               training_y := S (length (heap w));
               training_data := S (S (length (heap w))) |},
         set_heap (heap w ++ [X'; y; table]) w)
    | Raise e => (Raise e, set_heap (heap w ++ [X'; y]) w)
    end = (Ok self, w') →
    consistent self w' ∧
    f self = MODELS !! fname ∧
    norm self = norm_kind ∧
    training_x self = length (heap w) ∧
    training_y self = S (length (heap w)) ∧
    training_data self = S (S (length (heap w))) ∧
    (∃ X y table, heap w' = heap w ++ [X; y; table]) ∧
    files w' = files w ∧ plots w' = plots w ∧ rng w' = rng w ∧
    mat_files w' = mat_files w ∧ writable w' = writable w).
  { intros X' ns. unfold concatenate_axis1.
    destruct (decide (length y = length X')) as [Hlen|]; [|discriminate].
    intros [= <- <-]. cbn.
    split; [|repeat split; eauto].
    exists X', y. cbn.
    rewrite !lookup_app_r by lia. rewrite Nat.sub_diag.
    replace (S (length (heap w)) - length (heap w)) with 1 by lia.
    replace (S (S (length (heap w))) - length (heap w)) with 2 by lia.
    done. }
  destruct (truthy norm_kind).
  - destruct (normalize _ _) as [[features ns]|e]; [|discriminate].
    exact (Hgen (assign_from_col1 X features) (Some ns) Hinit).
  - exact (Hgen X None Hinit).
Qed.

(** X9. Consistency is an invariant of the trainer: [cross_validation] and
    [make_potential] keep it, whatever their arguments and however they
    end. *)
Theorem consistent_preserved self w :
  consistent self w →
  (∀ alpha_range max_iter tol plot_image seed,
     consistent self
       (snd (cross_validation self alpha_range max_iter tol plot_image seed w))) ∧
  (∀ output_dir alpha max_iter tol,
     consistent self
       (snd (make_potential self output_dir alpha max_iter tol w))).
Proof.
  intros (X & y & HX & Hy & Hlen & Htable). split.
  - intros alpha_range max_iter tol plot_image seed.
    destruct (cross_validation_world self alpha_range max_iter tol plot_image
                seed w _ Htable) as (r & evs & _ & Hrun).
    rewrite Hrun. cbn [snd]. exists X, y.
    unfold after_shuffle. cbn [heap set_plots set_rng set_heap].
    repeat split; try done; by apply lookup_app_l_Some.
  - intros output_dir alpha max_iter tol.
    exists X, y. rewrite make_potential_heap. done.
Qed.


(** ** Further properties of the folds *)

Lemma fold_ids_permutation i n :
  validation_id i n ++ train_id i n ≡ₚ seq 0 n.
Proof.
  apply NoDup_Permutation.
  - apply NoDup_app. split; [|split].
    + rewrite validation_id_range. apply NoDup_py_range. lia.
    + intros k Hk Htrain. apply elem_of_train_id in Htrain. tauto.
    + unfold train_id. apply NoDup_filter, NoDup_seq.
  - apply NoDup_seq.
  - intros k. rewrite elem_of_app, elem_of_seq. split.
    + intros [Hk|Hk].
      * pose proof (validation_id_lt i n) as Hlt.
        rewrite Forall_forall in Hlt. specialize (Hlt k Hk). lia.
      * apply elem_of_train_id in Hk. lia.
    + intros Hk. destruct (decide (k ∈ validation_id i n)); [by left|].
      right. apply elem_of_train_id. split; [lia|done].
Qed.

Lemma rows_at_from (pre data : matrix) :
  omap (λ j, (pre ++ data) !! j) (seq (length pre) (length data)) = data.
Proof.
  revert pre. induction data as [|row data IH]; intros pre; [done|].
  cbn [length seq omap list_omap].
  rewrite list_lookup_middle by done. cbn. f_equal.
  specialize (IH (pre ++ [row])).
  rewrite length_app, Nat.add_1_r, <- app_assoc in IH. exact IH.
Qed.

Lemma rows_at_all (data : matrix) : rows_at data (seq 0 (length data)) = data.
Proof. apply (rows_at_from [] data). Qed.

Lemma length_validation_id i n :
  i < 5 →
  length (validation_id i n)
    = n `div` 5 + (if decide (i < n `mod` 5) then 1 else 0).
Proof.
  intros Hi. rewrite validation_id_range. unfold py_range.
  rewrite length_fmap, length_seq.
  pose proof (Nat.div_mod_eq n 5) as Hn.
  pose proof (Nat.mod_upper_bound n 5) as Hr.
  symmetry. destruct (decide (i < n `mod` 5)).
  - apply (Nat.div_unique _ 5 _ (n `mod` 5 - i - 1)); lia.
  - destruct (decide (n < i)).
    + apply (Nat.div_unique _ 5 _ 4); lia.
    + apply (Nat.div_unique _ 5 _ (n `mod` 5 + 4 - i)); lia.
Qed.

(** X10. The folds are balanced: fold [i] validates on [N div 5] rows, plus
    one when [i < N mod 5] (the first folds take the remainder), and trains
    on all the others; so with at least 5 rows no fold validates or trains on
    an empty set. *)
Theorem fold_sizes i N :
  i < 5 →
  length (validation_id i N)
    = N `div` 5 + (if decide (i < N `mod` 5) then 1 else 0) ∧
  length (train_id i N) = N - length (validation_id i N) ∧
  (5 ≤ N → 0 < length (validation_id i N) ∧ 0 < length (train_id i N)).
Proof.
  intros Hi.
  pose proof (length_validation_id i N Hi) as Hval.
  pose proof (fold_ids_permutation i N) as Hperm.
  apply Permutation_length in Hperm.
  rewrite length_app, length_seq in Hperm.
  split; [exact Hval|]. split; [lia|].
  intros HN.
  pose proof (Nat.div_mod_eq N 5) as Hn.
  pose proof (Nat.mod_upper_bound N 5) as Hr.
  destruct (decide (i < N `mod` 5)); lia.
Qed.

(** Over the five folds every row index is validated on exactly once and
    trained on exactly four times. *)
Theorem each_row_validated_once k N :
  k < N →
  length (filter (λ i, k ∈ validation_id i N) (seq 0 5)) = 1 ∧
  length (filter (λ i, k ∈ train_id i N) (seq 0 5)) = 4.
Proof.
  intros Hk.
  pose proof (Nat.mod_upper_bound k 5) as Hr.
  assert (Hval : ∀ i, i < 5 → k ∈ validation_id i N ↔ k `mod` 5 = i).
  { intros i Hi. rewrite elem_of_validation_id by done. tauto. }
  assert (Htrain : ∀ i, i < 5 → k ∈ train_id i N ↔ k `mod` 5 ≠ i).
  { intros i Hi. rewrite elem_of_train_id, Hval by done. tauto. }
  cbn [seq].
  split.
  - rewrite !filter_cons, filter_nil.
    repeat case_decide;
      repeat match goal with
             | H : _ ∈ validation_id _ _ |- _ => apply Hval in H; [|lia]
             | H : ¬ _ ∈ validation_id _ _ |- _ => rewrite Hval in H by lia
             end;
      cbn [length]; lia.
  - rewrite !filter_cons, filter_nil.
    repeat case_decide;
      repeat match goal with
             | H : _ ∈ train_id _ _ |- _ => apply Htrain in H; [|lia]
             | H : ¬ _ ∈ train_id _ _ |- _ => rewrite Htrain in H by lia
             end;
      cbn [length]; lia.
Qed.

(** X11. In every fold the validation rows followed by the training rows
    are a rearrangement of the stored table: under the shuffle no row of the
    dataset is lost or used twice. *)
Theorem fold_rows_permutation seed table i :
  let data := working_table seed table in
  rows_at data (validation_id i (length data))
    ++ rows_at data (train_id i (length data)) ≡ₚ table.
Proof.
  intros data. unfold rows_at. rewrite <- omap_app.
  rewrite (fold_ids_permutation i (length data)).
  fold (rows_at data (seq 0 (length data))). rewrite rows_at_all.
  apply np_random_shuffle_permutes.
Qed.


(** ** Further properties of [cross_validation] *)

Lemma length_fold_figures kind data alpha max_iter tol plot_image :
  length (fold_figures kind data alpha max_iter tol plot_image 0)
  = if bool_decide (plot_image = Some "atom")
       || bool_decide (plot_image = Some "sample") then 2 else 0.
Proof.
  unfold fold_figures. cbn [bool_decide decide_rel andb].
  rewrite bool_decide_eq_true_2 by done. cbn [andb].
  destruct (bool_decide (plot_image = Some "atom")) eqn:Ha.
  - apply bool_decide_eq_true_1 in Ha as ->.
    rewrite bool_decide_eq_false_2 by discriminate. reflexivity.
  - destruct (bool_decide (plot_image = Some "sample")); reflexivity.
Qed.

Lemma length_sweep_fold_figures kind data (alpha_range : vector) max_iter tol
    plot_image :
  length (concat ((λ alpha, fold_figures kind data alpha max_iter tol
                              plot_image 0) <$> alpha_range))
  = (if bool_decide (plot_image = Some "atom")
        || bool_decide (plot_image = Some "sample") then 2 else 0)
    * length alpha_range.
Proof.
  induction alpha_range as [|a l IH]; [simpl; lia|].
  rewrite fmap_cons. cbn [concat length].
  rewrite length_app, length_fold_figures, IH. lia.
Qed.

(** X12. The figures of a run of [cross_validation], for a resolved model
    kind, a table of at least 5 rows and a non-empty sweep, when the values
    to plot are finite: the earlier figures stay; for each alpha, in order, fold 0 (and no other fold) shows
    its training and its validation figure in mode ["atom"] or ["sample"],
    and nothing in any other mode; the error curve comes last, with y-axis
    bounds [min_e - (max_e - min_e)] and [max_e + (max_e - min_e)].  So the
    call shows [2 * len(alpha_range) + 1] figures in a plotting mode and
    exactly 1 otherwise. *)
Theorem cross_validation_figures
    self kind alpha_range max_iter tol plot_image seed w table :
  f self = Some kind →
  heap w !! training_data self = Some table →
  Forall (λ row, 2 ≤ length row) table →
  5 ≤ length table →
  alpha_range ≠ [] →
  forallb plottable
    (sweep_figures kind (working_table seed table) alpha_range max_iter tol
       plot_image) = true →
  let w' :=
    snd (cross_validation self alpha_range max_iter tol plot_image seed w) in
  plots w' =
    plots w ++ sweep_figures kind (working_table seed table) alpha_range
                 max_iter tol plot_image ∧
  length (plots w') =
    length (plots w) +
    (if bool_decide (plot_image = Some "atom")
        || bool_decide (plot_image = Some "sample")
     then 2 * length alpha_range else 0) + 1.
Proof.
  intros Hf Htable Hrows _ Hne Hplot w'. subst w'.
  rewrite (cross_validation_unfold _ _ _ _ _ _ _ table) by done.
  rewrite (sweep_figures_emitted self kind (working_table seed table)
             alpha_range max_iter tol plot_image Hf
             (working_table_rows _ seed _ Hrows) Hne Hplot).
  cbn [snd]. unfold after_shuffle. cbn [plots set_plots set_rng set_heap].
  split; [reflexivity|].
  rewrite length_app. unfold sweep_figures. rewrite length_app.
  assert (Hcurve : ∀ es : vector, es ≠ [] →
            length match py_max es, py_min es with
                   | Ok max_e, Ok min_e =>
                       [PlotCross alpha_range es
                          (PrimFloat.sub min_e (PrimFloat.sub max_e min_e))
                          (PrimFloat.add max_e (PrimFloat.sub max_e min_e))]
                   | _, _ => []
                   end = 1).
  { intros [|e es] Hes; [done|reflexivity]. }
  rewrite Hcurve by (destruct alpha_range; [done|discriminate]).
  rewrite length_sweep_fold_figures.
  destruct (bool_decide (plot_image = Some "atom")
            || bool_decide (plot_image = Some "sample")); lia.
Qed.

Lemma column_fail j (m : matrix) :
  ¬ Forall (λ row, j < length row) m → column j m = Raise IndexError.
Proof.
  intros Hnot. unfold column.
  destruct (mapM (λ row : vector, row !! j) m) as [c|] eqn:Hc; [|done].
  exfalso. apply Hnot.
  assert (is_Some (mapM (λ row : vector, row !! j) m)) as Hsome by eauto.
  apply mapM_is_Some in Hsome.
  eapply Forall_impl; [exact Hsome|].
  intros row Hrow. by apply lookup_lt_is_Some.
Qed.

Lemma column_raises j (m : matrix) e : column j m = Raise e → e = IndexError.
Proof. unfold column. destruct (mapM _ m); congruence. Qed.

Lemma sweep_short_rows self data alpha_range max_iter tol plot_image :
  ¬ Forall (λ row, 2 ≤ length row) data →
  emits (sweep self data alpha_range max_iter tol plot_image)
    (Raise IndexError) [].
Proof.
  intros Hshort. unfold sweep.
  destruct (column 0 data) as [c0|e] eqn:H0.
  - rewrite bind_lift_ok, (column_fail 1).
    + apply emits_bind_raise, emits_lift.
    + intros H1. apply Hshort. eapply Forall_impl; [exact H1|].
      intros row ?. simpl in *. lia.
  - apply column_raises in H0 as ->. apply emits_bind_raise, emits_lift.
Qed.

Lemma cross_validation_no_table self alpha_range max_iter tol plot_image seed w :
  heap w !! training_data self = None →
  cross_validation self alpha_range max_iter tol plot_image seed w =
  (Raise AttributeError, w).
Proof.
  intros Htable. unfold cross_validation, bind at 1, read at 1.
  by rewrite Htable.
Qed.

(** X13. [cross_validation] writes nothing and spoils nothing: whatever its
    arguments and however it ends, the text files, the data files and the
    write permissions are as before, every array that was stored is
    unchanged, and the figures shown earlier are kept. *)
Theorem cross_validation_side_effects
    self alpha_range max_iter tol plot_image seed w :
  let w' :=
    snd (cross_validation self alpha_range max_iter tol plot_image seed w) in
  files w' = files w ∧
  mat_files w' = mat_files w ∧
  writable w' = writable w ∧
  (∀ l m, heap w !! l = Some m → heap w' !! l = Some m) ∧
  plots w `prefix_of` plots w'.
Proof.
  intros w'. subst w'.
  destruct (heap w !! training_data self) as [table|] eqn:Htable.
  - destruct (cross_validation_world self alpha_range max_iter tol plot_image
                seed w table Htable) as (r & evs & _ & Hrun).
    rewrite Hrun. cbn [snd]. unfold after_shuffle.
    cbn [heap rng files mat_files writable plots set_plots set_rng set_heap].
    repeat split; try done.
    + intros l m Hl. by apply lookup_app_l_Some.
    + by apply prefix_app_r.
  - by rewrite cross_validation_no_table.
Qed.

(** X14. A table with a row of fewer than 2 entries (an ["X"] without
    columns) makes [cross_validation] raise [IndexError] at [data[:, 1]],
    before any fold is run and whatever the sweep; no figure is shown. *)
Theorem cross_validation_too_few_columns
    self alpha_range max_iter tol plot_image seed w table :
  heap w !! training_data self = Some table →
  Exists (λ row, length row < 2) table →
  cross_validation self alpha_range max_iter tol plot_image seed w =
    (Raise IndexError, after_shuffle seed table w) ∧
  plots (after_shuffle seed table w) = plots w.
Proof.
  intros Htable Hshort.
  rewrite (cross_validation_unfold _ _ _ _ _ _ _ table) by done.
  rewrite (sweep_short_rows self (working_table seed table)).
  - split; [|done]. f_equal. apply set_plots_nil.
  - intros Hrows. unfold working_table in Hrows.
    rewrite np_random_shuffle_permutes in Hrows.
    apply Exists_exists in Hshort as (row & Hrow & Hlen).
    rewrite Forall_forall in Hrows. specialize (Hrows row Hrow).
    simpl in *. lia.
Qed.

(** X17. When the limits of the error curve are not finite (a NaN mean
    error met first by [max] and [min], for instance), [cross_validation]
    raises [ValueError] at [plt.ylim], after every fold of every alpha was
    run: the scatter plots of fold 0 have been shown, the error curve is not,
    and no errors are returned. *)
Theorem cross_validation_curve_refused
    self kind alpha_range max_iter tol plot_image seed w table :
  f self = Some kind →
  heap w !! training_data self = Some table →
  Forall (λ row, 2 ≤ length row) table →
  5 ≤ length table →
  alpha_range ≠ [] →
  let data := working_table seed table in
  let errors := mean_validation_error kind data max_iter tol <$> alpha_range in
  let scatter :=
    concat ((λ alpha, fold_figures kind data alpha max_iter tol plot_image 0)
              <$> alpha_range) in
  forallb plottable scatter = true →
  (∀ max_e min_e, py_max errors = Ok max_e → py_min errors = Ok min_e →
     PrimFloat.is_finite (PrimFloat.sub min_e (PrimFloat.sub max_e min_e))
     && PrimFloat.is_finite (PrimFloat.add max_e (PrimFloat.sub max_e min_e))
     = false) →
  cross_validation self alpha_range max_iter tol plot_image seed w =
    (Raise ValueError,
     set_plots (plots w ++ scatter) (after_shuffle seed table w)).
Proof.
  intros Hf Htable Hrows _ Hne data errors scatter Hscatter Hcurve.
  rewrite (cross_validation_unfold _ _ _ _ _ _ _ table) by done.
  rewrite (sweep_curve_refused self kind data alpha_range max_iter tol
             plot_image Hf (working_table_rows _ seed _ Hrows) Hne
             Hscatter Hcurve).
  reflexivity.
Qed.

(** *** The example script *)

Lemma example_trainer_unfold DATA_DIR w d X y N D :
  mat_files w !! os_path_join DATA_DIR "re.mat" = Some d →
  d !! "X" = Some X →
  d !! "y" = Some y →
  shape X N (1 + D) →
  shape y N 1 →
  forallb plottable
    (sweep_figures Ridge (working_table default_seed (zip_with app y X))
       example_alphas default_max_iter default_tol (Some "atom")) = true →
  let table := zip_with app y X in
  let pt := {| data_dir := os_path_join DATA_DIR "re.mat"; f := Some Ridge;
               training_x := length (heap w); norm := None; norms := None;
               training_y := S (length (heap w));
               training_data := S (S (length (heap w))) |} in
  let w2 :=
    set_plots
      (plots w ++ sweep_figures Ridge (working_table default_seed table)
                    example_alphas default_max_iter default_tol (Some "atom"))
      (after_shuffle default_seed table
         (set_heap (heap w ++ [X; y; table]) w)) in
  example_trainer DATA_DIR w =
    make_potential pt DATA_DIR 0 default_max_iter default_tol w2 ∧
  heap w2 !! training_x pt = Some X ∧
  heap w2 !! training_y pt = Some y.
Proof.
  intros Hd HX Hy [HlenX HrowsX] [Hleny Hrowsy] Hplot table pt w2.
  assert (Htable : Forall (λ row : vector, 2 ≤ length row) table).
  { apply Forall_forall. intros row Hrow.
    apply list_elem_of_lookup in Hrow as [i Hi].
    apply lookup_zip_with_Some in Hi as (a & b & -> & Ha & Hb).
    rewrite length_app. rewrite Forall_forall in Hrowsy, HrowsX.
    rewrite (Hrowsy a) by (by eapply list_elem_of_lookup_2).
    rewrite (HrowsX b) by (by eapply list_elem_of_lookup_2). lia. }
  split; [|split].
  - unfold example_trainer, bind at 1.
    rewrite (init_run _ _ _ _ d X y) by done. cbn zeta. cbn [truthy].
    unfold concatenate_axis1. rewrite decide_True by lia.
    rewrite MODELS_get_RIDGE. fold table. fold pt.
    unfold bind at 1.
    rewrite (cross_validation_unfold _ _ _ _ _ _ _ table).
    + rewrite (sweep_figures_emitted pt Ridge (working_table default_seed table)
                 example_alphas default_max_iter default_tol (Some "atom")
                 eq_refl (working_table_rows _ default_seed _ Htable))
        by (done || discriminate).
      reflexivity.
    + cbn [heap set_heap training_data pt].
      rewrite lookup_app_r by lia.
      by replace (S (S (length (heap w))) - length (heap w)) with 2 by lia.
  - subst w2 pt. unfold after_shuffle.
    cbn [heap set_plots set_rng set_heap training_x].
    rewrite lookup_app_l by (rewrite length_app; simpl; lia).
    rewrite lookup_app_r by lia. by rewrite Nat.sub_diag.
  - subst w2 pt. unfold after_shuffle.
    cbn [heap set_plots set_rng set_heap training_y].
    rewrite lookup_app_l by (rewrite length_app; simpl; lia).
    rewrite lookup_app_r by lia.
    by replace (S (length (heap w)) - length (heap w)) with 1 by lia.
Qed.

(** X15. The example script on a well-formed [re.mat] (["X"] of shape
    (N, 1+D), ["y"] of shape (N, 1), N at least 5, finite values to plot)
    next to a writable [re_potential]: it succeeds; it shows 9 figures, the two of fold 0 for
    each of the four alphas and the error curve; and the file it writes holds
    the coefficients of a ridge fit with alpha 0 on the whole data as loaded.
    The errors of the sweep and the shuffle do not reach the file. *)
Theorem example_trainer_run DATA_DIR w d X y N D potential :
  mat_files w !! os_path_join DATA_DIR "re.mat" = Some d →
  d !! "X" = Some X →
  d !! "y" = Some y →
  shape X N (1 + D) →
  shape y N 1 →
  5 ≤ N →
  getitem0
    (coef_ (fit {| est_kind := Ridge; est_alpha := 0;
                   est_max_iter := default_max_iter; est_tol := default_tol;
                   est_fit_intercept := false |} X (Y2 y)))
    = Ok (Row potential) →
  forallb plottable
    (sweep_figures Ridge (working_table default_seed (zip_with app y X))
       example_alphas default_max_iter default_tol (Some "atom")) = true →
  os_path_join DATA_DIR "re_potential" ∈ writable w →
  let w' := snd (example_trainer DATA_DIR w) in
  fst (example_trainer DATA_DIR w) = Ok () ∧
  files w' =
    <[os_path_join DATA_DIR "re_potential" := potential_text potential]>
      (files w) ∧
  plots w' =
    plots w ++ sweep_figures Ridge
                 (working_table default_seed (zip_with app y X))
                 example_alphas default_max_iter default_tol (Some "atom") ∧
  length (plots w') = length (plots w) + 9.
Proof.
  intros Hd HX Hy HsX Hsy _ Hcoef Hplot Hwr w'. subst w'.
  destruct (example_trainer_unfold DATA_DIR w d X y N D Hd HX Hy HsX Hsy Hplot)
    as (-> & HhX & Hhy).
  rewrite (make_potential_run _ _ _ _ _ _ X y HhX Hhy).
  unfold potential_of. cbn [f norm truthy]. rewrite Hcoef.
  unfold after_shuffle.
  cbn [writable set_plots set_rng set_heap].
  rewrite decide_True by done.
  cbn [written fst snd files plots set_files set_plots set_rng set_heap].
  repeat split; try done.
  rewrite length_app. f_equal.
Qed.

(** X16. The same script when [re_potential] cannot be opened for writing:
    it raises [OSError], but only at the end: the sweep has been run and its
    9 figures shown; no file is created or changed. *)
Theorem example_trainer_unwritable DATA_DIR w d X y N D potential :
  mat_files w !! os_path_join DATA_DIR "re.mat" = Some d →
  d !! "X" = Some X →
  d !! "y" = Some y →
  shape X N (1 + D) →
  shape y N 1 →
  5 ≤ N →
  getitem0
    (coef_ (fit {| est_kind := Ridge; est_alpha := 0;
                   est_max_iter := default_max_iter; est_tol := default_tol;
                   est_fit_intercept := false |} X (Y2 y)))
    = Ok (Row potential) →
  forallb plottable
    (sweep_figures Ridge (working_table default_seed (zip_with app y X))
       example_alphas default_max_iter default_tol (Some "atom")) = true →
  os_path_join DATA_DIR "re_potential" ∉ writable w →
  let w' := snd (example_trainer DATA_DIR w) in
  fst (example_trainer DATA_DIR w) = Raise OSError ∧
  files w' = files w ∧
  length (plots w') = length (plots w) + 9.
Proof.
  intros Hd HX Hy HsX Hsy _ Hcoef Hplot Hwr w'. subst w'.
  destruct (example_trainer_unfold DATA_DIR w d X y N D Hd HX Hy HsX Hsy Hplot)
    as (-> & HhX & Hhy).
  rewrite (make_potential_run _ _ _ _ _ _ X y HhX Hhy).
  unfold potential_of. cbn [f norm truthy]. rewrite Hcoef.
  unfold after_shuffle.
  cbn [writable set_plots set_rng set_heap].
  rewrite decide_False by done.
  cbn [fst snd files plots set_files set_plots set_rng set_heap].
  repeat split; try done.
  rewrite length_app. f_equal.
Qed.

End Trainer.

Arguments heap {rng_state} w.
Arguments rng {rng_state} w.
Arguments mat_files {rng_state} w.
Arguments files {rng_state} w.
Arguments writable {rng_state} w.
Arguments plots {rng_state} w.
Arguments Build_World {rng_state}.

(** ** The trainer on the reference collaborators *)

Module Run.

Abbreviation World := (World Stub.rng_state).

Abbreviation init := (__init__ Stub.rng_state Stub.column_norm).

Abbreviation cross_validation :=
  (cross_validation Stub.rng_state Stub.np_random_seed Stub.np_random_shuffle
     Stub.fitted Stub.fit Stub.predict_row Stub.np_mean Stub.np_mean).

Abbreviation make_potential :=
  (make_potential Stub.rng_state Stub.fitted Stub.fit Stub.coef_ Stub.str).

Abbreviation working_table :=
  (working_table Stub.rng_state Stub.np_random_seed Stub.np_random_shuffle).

(** A data file of 6 structures with 2 atoms each, one descriptor, and
    energy 3. *)
Definition X6 : matrix :=
  [[2; 1]; [2; 2]; [2; 3]; [2; 4]; [2; 5]; [2; 6]]%float.

Definition y6 : matrix := [[3]; [3]; [3]; [3]; [3]; [3]]%float.

Definition table6 : matrix :=
  [[3; 2; 1]; [3; 2; 2]; [3; 2; 3]; [3; 2; 4]; [3; 2; 5]; [3; 2; 6]]%float.

(** The same with two descriptors. *)
Definition X6' : matrix :=
  [[2; 1; 4]; [2; 2; 4]; [2; 3; 4]; [2; 4; 4]; [2; 5; 4]; [2; 6; 4]]%float.

(** A data file whose structures have atom count 0 and energy 0. *)
Definition X5_zero : matrix := [[0; 1]; [0; 2]; [0; 3]; [0; 4]; [0; 5]]%float.

Definition y5_zero : matrix := [[0]; [0]; [0]; [0]; [0]]%float.

Definition table5_zero : matrix :=
  [[0; 0; 1]; [0; 0; 2]; [0; 0; 3]; [0; 0; 4]; [0; 0; 5]]%float.

(** Six structures of energy 3 per 2 atoms, one of them replaced by an
    empty cell: 0 atoms and energy 0. *)
Definition X6_empty_cell : matrix :=
  [[2; 1]; [2; 2]; [2; 3]; [0; 4]; [2; 5]; [2; 6]]%float.

Definition y6_empty_cell : matrix := [[3]; [3]; [3]; [0]; [3]; [3]]%float.

Definition table6_empty_cell : matrix :=
  [[3; 2; 1]; [3; 2; 2]; [3; 2; 3]; [0; 0; 4]; [3; 2; 5]; [3; 2; 6]]%float.

Definition world_of (X y : matrix) : World :=
  {| heap := []; rng := 7%Z;
     mat_files := {[ "re.mat" := {[ "X" := X; "y" := y ]} ]};
     files := {[ "out/re_potential" := "stale" ]};
     writable := {[ "out/re_potential" ]};
     plots := [] |}.

(** The world after the trainer is built from a data file, and the trainer. *)
Definition built (X y table : matrix) : World :=
  {| heap := [X; y; table]; rng := 7%Z;
     mat_files := {[ "re.mat" := {[ "X" := X; "y" := y ]} ]};
     files := {[ "out/re_potential" := "stale" ]};
     writable := {[ "out/re_potential" ]};
     plots := [] |}.

Definition trainer (kind : option ModelKind) (norm : option string)
    (norms : option vector) : PotentialTrainer :=
  {| data_dir := "re.mat"; f := kind; training_x := 0; norm := norm;
     norms := norms; training_y := 1; training_data := 2 |}.

(** The example script and a world for it: the data file lies in the
    directory ["data"]; [re_potential] can be written there or not. *)
Abbreviation example_trainer :=
  (example_trainer Stub.rng_state Stub.np_random_seed Stub.np_random_shuffle
     Stub.fitted Stub.fit Stub.predict_row Stub.coef_ Stub.np_mean
     Stub.np_mean Stub.column_norm Stub.str).

Definition example_world (can_write : bool) : World :=
  {| heap := []; rng := 7%Z;
     mat_files := {[ "data/re.mat" := {[ "X" := X6; "y" := y6 ]} ]};
     files := ∅;
     writable := if can_write then {[ "data/re_potential" ]} else ∅;
     plots := [] |}.

(** A data file without ["X"], and a table whose ["X"] has no column. *)
Definition world_without_X : World :=
  {| heap := []; rng := 7%Z;
     mat_files := {[ "re.mat" := {[ "y" := y6 ]} ]};
     files := ∅; writable := ∅; plots := [] |}.

Definition X1_empty : matrix := [[]].

Definition y1 : matrix := [[3]]%float.

End Run.

Example init_ridge :
  Run.init "re.mat" "RIDGE" None (Run.world_of Run.X6 Run.y6)
  = (Ok (Run.trainer (Some Ridge) None None),
     Run.built Run.X6 Run.y6 Run.table6).
Proof. vm_compute. reflexivity. Qed.

Example init_zero_atom_counts :
  Run.init "re.mat" "RIDGE" None (Run.world_of Run.X5_zero Run.y5_zero)
  = (Ok (Run.trainer (Some Ridge) None None),
     Run.built Run.X5_zero Run.y5_zero Run.table5_zero).
Proof. vm_compute. reflexivity. Qed.

(** With a norm and two descriptors, construction succeeds and
    [make_potential] then raises [ValueError], writing nothing. *)
Example make_potential_after_l2_init :
  match Run.init "re.mat" "RIDGE" (Some "l2") (Run.world_of Run.X6' Run.y6) with
  | (Ok self, w) =>
      length <$> norms self = Some 2 ∧
      Run.make_potential self "out" default_alpha default_max_iter default_tol w
        = (Raise ValueError, w)
  | _ => False
  end.
Proof. vm_compute. split; reflexivity. Qed.

(** With a norm and one descriptor the single scale is broadcast: both
    coefficients, the atom-count one included, are divided by it. *)
Example make_potential_l2_one_descriptor :
  match Run.init "re.mat" "RIDGE" (Some "l2") (Run.world_of Run.X6 Run.y6) with
  | (Ok self, w) =>
      ∃ s X y c0 c1,
        norms self = Some [s] ∧
        heap w !! training_x self = Some X ∧
        heap w !! training_y self = Some y ∧
        Stub.coef_ (Stub.fit {| est_kind := Ridge; est_alpha := default_alpha;
                                est_max_iter := default_max_iter;
                                est_tol := default_tol;
                                est_fit_intercept := false |} X (Y2 y))
          = Coef2 [[c0; c1]] ∧
        potential_of Stub.fitted Stub.fit Stub.coef_ self X y
          default_alpha default_max_iter default_tol
          = Ok (Row [PrimFloat.div c0 s; PrimFloat.div c1 s])
  | _ => False
  end.
Proof. vm_compute. do 5 eexists. repeat split; reflexivity. Qed.

(** With LASSO and no norm, [coef_[0]] is a scalar: [make_potential] raises
    [TypeError] and leaves the file it opened empty. *)
Example make_potential_lasso_empties_file :
  Run.make_potential (Run.trainer (Some Lasso) None None) "out"
    default_alpha default_max_iter default_tol
    (Run.built Run.X6 Run.y6 Run.table6)
  = (Raise TypeError,
     set_files Stub.rng_state
       (<["out/re_potential" := ""]>
          (files (Run.built Run.X6 Run.y6 Run.table6)))
       (Run.built Run.X6 Run.y6 Run.table6)).
Proof. vm_compute. reflexivity. Qed.

Example cross_validation_ridge :
  fst (Run.cross_validation (Run.trainer (Some Ridge) None None)
         [0; 1]%float 1000000%float 1%float (Some "atom") 2020%Z
         (Run.built Run.X6 Run.y6 Run.table6))
  = Ok [0; 0]%float.
Proof. vm_compute. reflexivity. Qed.

(** ** The reference collaborators meet their contracts *)

Lemma stub_shuffle_permutes (r : Stub.rng_state) (m : matrix) :
  fst (Stub.np_random_shuffle r m) ≡ₚ m.
Proof.
  unfold Stub.np_random_shuffle, rotate. cbn [fst].
  rewrite Permutation_app_comm. by rewrite take_drop.
Qed.

Lemma stub_weights_length (X : matrix) (y : target) :
  length (Stub.weights X y) = ncols X.
Proof.
  unfold Stub.weights.
  destruct (ncols X); [done|]. cbn [length]. by rewrite length_replicate.
Qed.

Lemma stub_coef_shape (e : estimator) (X : matrix) (y : target) m :
  Stub.coef_ (Stub.fit e X y) = Coef2 m → shape m 1 (ncols X).
Proof.
  unfold Stub.coef_, Stub.fit. cbn [fst snd].
  destruct (match est_kind e with Lasso => _ | Ridge => _ end);
    intros [= <-].
  split; [done|]. constructor; [|constructor]. apply stub_weights_length.
Qed.


Lemma count_lines_pos_digits (p : positive) :
  count_lines (Stub.pos_digits p) = 0.
Proof.
  induction p as [p IH|p IH|]; cbn [Stub.pos_digits]; [| |done];
    by rewrite count_lines_app, IH.
Qed.

Lemma stub_str_one_line (c : float) : count_lines (Stub.str c) = 0.
Proof.
  unfold Stub.str, Stub.sign_text.
  destruct (Prim2SF c) as [s|s| |s m e]; [by destruct s..|done|].
  rewrite !count_lines_app, count_lines_pos_digits.
  destruct s, e as [|p|p];
    rewrite ?count_lines_app, ?count_lines_pos_digits; done.
Qed.

(** ** Instances of the theorems *)

Lemma cross_validation_folds_partition_witness :
  7 ∈ validation_id 2 12 ∧
  (7 ∉ validation_id 3 12) ∧
  (∃ i, i < 5 ∧ 7 ∈ validation_id i 12) ∧
  (7 ∉ train_id 2 12) ∧
  8 ∈ train_id 2 12 ∧
  NoDup (validation_id 2 12).
Proof.
  destruct (cross_validation_folds_partition 12)
    as (Hmod & Hdisj & Hcover & Htrain & Hnodup).
  assert (H2 : 2 < 5) by lia. assert (H3 : 3 < 5) by lia.
  assert (H7 : 7 ∈ validation_id 2 12).
  { apply (Hmod 2 7 H2). split; [lia|reflexivity]. }
  split; [exact H7|].
  split; [apply (Hdisj 2 3 7 H2 H3); [lia|exact H7]|].
  split; [apply Hcover; lia|].
  split.
  { intros H. apply (Htrain 2 7 H2) in H. tauto. }
  split; [|by apply Hnodup].
  apply (Htrain 2 8 H2). split; [lia|].
  intros H. apply (Hmod 2 8 H2) in H. destruct H as [_ H]. discriminate.
Defined.


Lemma make_potential_normalized_raises_witness :
  Run.make_potential (Run.trainer (Some Ridge) (Some "l2") (Some [1; 2]%float))
    "out" 1 1000000 1 (Run.built Run.X6' Run.y6 Run.table6)
  = (Raise ValueError, Run.built Run.X6' Run.y6 Run.table6).
Proof.
  apply (make_potential_normalized_raises Stub.rng_state Stub.fitted
           Stub.fit Stub.coef_ Stub.str
           (Run.trainer (Some Ridge) (Some "l2") (Some [1; 2]%float))
           "out" 1 1000000 1 (Run.built Run.X6' Run.y6 Run.table6)
           Run.X6' Run.y6 Ridge 6 2 [1; 2]%float
           [Stub.weights Run.X6' (Y2 Run.y6)]).
  - reflexivity.
  - reflexivity.
  - reflexivity.
  - reflexivity.
  - reflexivity.
  - reflexivity.
  - split; [reflexivity|]. repeat constructor.
  - lia.
  - reflexivity.
  - apply (stub_coef_shape (Build_estimator Ridge 1 1000000 1 false)
             Run.X6' (Y2 Run.y6)).
    reflexivity.
  - lia.
Defined.

Lemma cross_validation_empty_sweep_raises_witness :
  py_max [] = Raise ValueError ∧
  fst (Run.cross_validation (Run.trainer (Some Ridge) None None) []
         1000000 1 (Some "atom") 2020
         (Run.built Run.X6 Run.y6 Run.table6)) = Raise ValueError ∧
  plots (snd (Run.cross_validation (Run.trainer (Some Ridge) None None) []
                1000000 1 (Some "atom") 2020
                (Run.built Run.X6 Run.y6 Run.table6)))
  = plots (Run.built Run.X6 Run.y6 Run.table6).
Proof.
  apply (cross_validation_empty_sweep_raises Stub.rng_state
           Stub.np_random_seed Stub.np_random_shuffle Stub.fitted Stub.fit
           Stub.predict_row Stub.np_mean Stub.np_mean stub_shuffle_permutes
           (Run.trainer (Some Ridge) None None) 1000000 1 (Some "atom") 2020
           (Run.built Run.X6 Run.y6 Run.table6) Run.table6).
  - reflexivity.
  - repeat constructor.
Defined.

Lemma cross_validation_preserves_training_arrays_witness :
  let w := Run.built Run.X6 Run.y6 Run.table6 in
  let self := Run.trainer (Some Ridge) None None in
  let w' := snd (Run.cross_validation self [0; 1]%float 1000000 1 (Some "atom")
                   2020 w) in
  heap w' !! training_x self = Some Run.X6 ∧
  heap w' !! training_y self = Some Run.y6 ∧
  heap w' !! training_data self = Some Run.table6 ∧
  ∀ output_dir alpha' max_iter' tol',
    fst (Run.make_potential self output_dir alpha' max_iter' tol' w') =
      fst (Run.make_potential self output_dir alpha' max_iter' tol' w) ∧
    files (snd (Run.make_potential self output_dir alpha' max_iter' tol' w')) =
      files (snd (Run.make_potential self output_dir alpha' max_iter' tol' w)).
Proof.
  intros w self.
  apply (cross_validation_preserves_training_arrays Stub.rng_state
           Stub.np_random_seed Stub.np_random_shuffle Stub.fitted Stub.fit
           Stub.predict_row Stub.coef_ Stub.np_mean Stub.np_mean Stub.str
           self [0; 1]%float 1000000 1 (Some "atom") 2020 w
           Run.X6 Run.y6 Run.table6); reflexivity.
Defined.

Lemma cross_validation_deterministic_witness :
  let w1 := Run.built Run.X6 Run.y6 Run.table6 in
  let w2 := set_rng Stub.rng_state 99%Z w1 in
  let run :=
    Run.cross_validation (Run.trainer (Some Ridge) None None) [0; 1]%float
      1000000 1 None 2020 in
  last (heap (snd (run w1))) = Some (Run.working_table 2020 Run.table6) ∧
  last (heap (snd (run w2))) = Some (Run.working_table 2020 Run.table6) ∧
  fst (run w1) = fst (run w2) ∧
  last (heap (snd (run (snd (run w1)))))
    = Some (Run.working_table 2020 Run.table6) ∧
  fst (run (snd (run w1))) = fst (run w1).
Proof.
  intros w1 w2.
  apply (cross_validation_deterministic Stub.rng_state
           Stub.np_random_seed Stub.np_random_shuffle Stub.fitted Stub.fit
           Stub.predict_row Stub.np_mean Stub.np_mean
           (Run.trainer (Some Ridge) None None) [0; 1]%float 1000000 1 None
           2020 w1 w2 Run.table6); reflexivity.
Defined.

Lemma init_normalization_witness :
  (∃ self w' ns X',
     Run.init "re.mat" "RIDGE" (Some "l2") (Run.world_of Run.X6 Run.y6)
       = (Ok self, w') ∧
     norms self = Some ns ∧
     ns = Stub.column_norm "l2" <$> columns (from_col1 Run.X6) ∧
     length ns = 1 ∧
     heap w' !! training_x self = Some X' ∧
     length X' = 6 ∧
     ∀ i row, Run.X6 !! i = Some row →
       ∃ row', X' !! i = Some row' ∧
         length row' = 1 + 1 ∧
         row' !! 0 = row !! 0 ∧
         ∀ j x, row !! S j = Some x →
           ∃ s, ns !! j = Some s ∧ row' !! S j = Some (PrimFloat.div x s)) ∧
  (∃ self w',
     Run.init "re.mat" "RIDGE" None (Run.world_of Run.X6 Run.y6)
       = (Ok self, w') ∧
     norms self = None ∧
     heap w' !! training_x self = Some Run.X6).
Proof.
  assert (Hshape : shape Run.X6 6 (1 + 1))
    by (split; [reflexivity|repeat constructor]).
  split.
  - apply (proj1 (init_normalization Stub.rng_state Stub.column_norm
                    "re.mat" "RIDGE" (Some "l2") (Run.world_of Run.X6 Run.y6)
                    {[ "X" := Run.X6; "y" := Run.y6 ]} Run.X6 Run.y6 6 1
                    eq_refl eq_refl eq_refl Hshape eq_refl (Nat.lt_0_succ 5))
             "l2" eq_refl).
    apply elem_of_cons. right. apply elem_of_cons. by left.
  - apply (proj2 (init_normalization Stub.rng_state Stub.column_norm
                    "re.mat" "RIDGE" None (Run.world_of Run.X6 Run.y6)
                    {[ "X" := Run.X6; "y" := Run.y6 ]} Run.X6 Run.y6 6 1
                    eq_refl eq_refl eq_refl Hshape eq_refl (Nat.lt_0_succ 5))
             eq_refl).
Defined.

Lemma unknown_model_kind_fails_at_fit_witness :
  ∃ self w',
    Run.init "re.mat" "OLS" None (Run.world_of Run.X6 Run.y6) = (Ok self, w') ∧
    f self = None ∧
    (∀ output_dir alpha max_iter tol,
       Run.make_potential self output_dir alpha max_iter tol w'
         = (Raise TypeError, w')) ∧
    (∀ alpha alpha_range max_iter tol plot_image seed,
       fst (Run.cross_validation self (alpha :: alpha_range) max_iter tol
              plot_image seed w') = Raise TypeError ∧
       files (snd (Run.cross_validation self (alpha :: alpha_range) max_iter
                     tol plot_image seed w')) = files w').
Proof.
  apply (unknown_model_kind_fails_at_fit Stub.rng_state Stub.np_random_seed
           Stub.np_random_shuffle Stub.fitted Stub.fit Stub.predict_row
           Stub.coef_ Stub.np_mean Stub.np_mean Stub.column_norm Stub.str
           stub_shuffle_permutes "re.mat" "OLS" None
           (Run.world_of Run.X6 Run.y6)
           {[ "X" := Run.X6; "y" := Run.y6 ]} Run.X6 Run.y6 6 1).
  - discriminate.
  - discriminate.
  - reflexivity.
  - reflexivity.
  - reflexivity.
  - split; [reflexivity|repeat constructor].
  - split; [reflexivity|repeat constructor].
  - by left.
Defined.

Lemma cross_validation_returns_mean_errors_witness :
  ∃ errors,
    fst (Run.cross_validation (Run.trainer (Some Ridge) None None) [0; 1]%float
           1000000 1 (Some "sample") 2020
           (Run.built Run.X6 Run.y6 Run.table6)) = Ok errors ∧
    length errors = 2 ∧
    ∀ k alpha, [0; 1]%float !! k = Some alpha →
      errors !! k =
        Some (Stub.np_mean
                ((λ i, validation_error Stub.fitted Stub.fit Stub.predict_row
                         Stub.np_mean Ridge (Run.working_table 2020 Run.table6)
                         alpha 1000000 1 i) <$> seq 0 5)).
Proof.
  apply (cross_validation_returns_mean_errors Stub.rng_state
           Stub.np_random_seed Stub.np_random_shuffle Stub.fitted Stub.fit
           Stub.predict_row Stub.np_mean Stub.np_mean stub_shuffle_permutes
           (Run.trainer (Some Ridge) None None) Ridge [0; 1]%float 1000000 1
           (Some "sample") 2020 (Run.built Run.X6 Run.y6 Run.table6)
           Run.table6).
  - reflexivity.
  - reflexivity.
  - repeat constructor.
  - vm_compute. lia.
  - unfold valid_seed. lia.
  - discriminate.
  - vm_compute. reflexivity.
Defined.




(** ** Inputs at which the stated claims fail *)



(** ** Instances of the further properties *)

Lemma make_potential_one_descriptor_broadcast_witness :
  Run.make_potential (Run.trainer (Some Ridge) (Some "l2") (Some [2]%float))
    "out" 1 1000000 1 (Run.built Run.X6 Run.y6 Run.table6)
  = (Ok (),
     set_files Stub.rng_state
       (<[os_path_join "out" "re_potential" :=
            potential_text Stub.str
              [PrimFloat.div 0x1.8p+0 2; PrimFloat.div 0 2]]>
          (files (Run.built Run.X6 Run.y6 Run.table6)))
       (Run.built Run.X6 Run.y6 Run.table6)) ∧
  Run.make_potential
    (Run.trainer (Some Lasso) (Some "l2") (Some [2; 4]%float))
    "out" 1 1000000 1 (Run.built Run.X6' Run.y6 Run.table6)
  = (Ok (),
     set_files Stub.rng_state
       (<[os_path_join "out" "re_potential" :=
            potential_text Stub.str
              ((λ s, PrimFloat.div 0x1.8p+0 s) <$> [2; 4]%float)]>
          (files (Run.built Run.X6' Run.y6 Run.table6)))
       (Run.built Run.X6' Run.y6 Run.table6)).
Proof.
  split.
  - destruct (make_potential_one_descriptor_broadcast Stub.rng_state
                Stub.fitted Stub.fit Stub.coef_ Stub.str
                (Run.trainer (Some Ridge) (Some "l2") (Some [2]%float))
                "out" 1 1000000 1 (Run.built Run.X6 Run.y6 Run.table6)
                Run.X6 Run.y6 Ridge [2]%float) as [Hridge _].
    + reflexivity.
    + reflexivity.
    + reflexivity.
    + reflexivity.
    + reflexivity.
    + apply elem_of_singleton. reflexivity.
    + apply (Hridge 2%float 0x1.8p+0%float 0%float); [reflexivity|].
      vm_compute. reflexivity.
  - destruct (make_potential_one_descriptor_broadcast Stub.rng_state
                Stub.fitted Stub.fit Stub.coef_ Stub.str
                (Run.trainer (Some Lasso) (Some "l2") (Some [2; 4]%float))
                "out" 1 1000000 1 (Run.built Run.X6' Run.y6 Run.table6)
                Run.X6' Run.y6 Lasso [2; 4]%float) as [_ Hlasso].
    + reflexivity.
    + reflexivity.
    + reflexivity.
    + reflexivity.
    + reflexivity.
    + apply elem_of_singleton. reflexivity.
    + apply (Hlasso [0x1.8p+0; 0; 0]%float 0x1.8p+0%float).
      * vm_compute. reflexivity.
      * reflexivity.
Defined.

Lemma potential_text_inj_witness :
  Stub.str <$> [1; 2]%float = Stub.str <$> [1; 2]%float.
Proof.
  apply (potential_text_inj Stub.str [1; 2]%float [1; 2]%float).
  - apply stub_str_one_line.
  - reflexivity.
Defined.

Lemma init_missing_input_witness :
  Run.init "nowhere.mat" "RIDGE" None (Run.world_of Run.X6 Run.y6)
    = (Raise OSError, Run.world_of Run.X6 Run.y6) ∧
  Run.init "re.mat" "RIDGE" None Run.world_without_X
    = (Raise (KeyError "X"), Run.world_without_X).
Proof.
  split.
  - apply (proj1 (init_missing_input Stub.rng_state Stub.column_norm
                    "nowhere.mat" "RIDGE" None (Run.world_of Run.X6 Run.y6))).
    vm_compute. reflexivity.
  - apply (proj1 (proj2 (init_missing_input Stub.rng_state Stub.column_norm
                           "re.mat" "RIDGE" None Run.world_without_X))
             {[ "y" := Run.y6 ]}).
    + vm_compute. reflexivity.
    + vm_compute. reflexivity.
Defined.

Lemma init_row_count_mismatch_witness :
  fst (Run.init "re.mat" "RIDGE" None (Run.world_of Run.X6 Run.y5_zero))
  = Raise ValueError.
Proof.
  apply (init_row_count_mismatch Stub.rng_state Stub.column_norm
           "re.mat" "RIDGE" None (Run.world_of Run.X6 Run.y5_zero)
           {[ "X" := Run.X6; "y" := Run.y5_zero ]} Run.X6 Run.y5_zero).
  - vm_compute. reflexivity.
  - vm_compute. reflexivity.
  - vm_compute. reflexivity.
  - simpl. lia.
  - left. reflexivity.
Defined.

Lemma init_empty_norm_is_no_norm_witness :
  ∃ (self : PotentialTrainer) (w' : Run.World),
    Run.init "re.mat" "RIDGE" None (Run.world_of Run.X6 Run.y6) = (Ok self, w') ∧
    Run.init "re.mat" "RIDGE" (Some "") (Run.world_of Run.X6 Run.y6) =
      (Ok {| data_dir := data_dir self; f := f self;
             training_x := training_x self; norm := Some "";
             norms := None; training_y := training_y self;
             training_data := training_data self |}, w') ∧
    norms self = None ∧
    heap w' !! training_x self = Some Run.X6.
Proof.
  apply (init_empty_norm_is_no_norm Stub.rng_state Stub.column_norm
           "re.mat" "RIDGE" (Run.world_of Run.X6 Run.y6)
           {[ "X" := Run.X6; "y" := Run.y6 ]} Run.X6 Run.y6).
  - vm_compute. reflexivity.
  - vm_compute. reflexivity.
  - vm_compute. reflexivity.
  - reflexivity.
Defined.

Lemma init_consistent_witness :
  let w := Run.world_of Run.X6 Run.y6 in
  let w' := Run.built Run.X6 Run.y6 Run.table6 in
  let self := Run.trainer (Some Ridge) None None in
  consistent Stub.rng_state self w' ∧
  f self = MODELS !! "RIDGE" ∧
  norm self = None ∧
  training_x self = length (heap w) ∧
  training_y self = S (length (heap w)) ∧
  training_data self = S (S (length (heap w))) ∧
  (∃ X y table, heap w' = heap w ++ [X; y; table]) ∧
  files w' = files w ∧ plots w' = plots w ∧ rng w' = rng w ∧
  mat_files w' = mat_files w ∧ writable w' = writable w.
Proof.
  apply (init_consistent Stub.rng_state Stub.column_norm "re.mat" "RIDGE" None
           (Run.world_of Run.X6 Run.y6) (Run.trainer (Some Ridge) None None)
           (Run.built Run.X6 Run.y6 Run.table6)).
  vm_compute. reflexivity.
Defined.

Lemma consistent_preserved_witness :
  let w := Run.built Run.X6 Run.y6 Run.table6 in
  let self := Run.trainer (Some Ridge) None None in
  (∀ alpha_range max_iter tol plot_image seed,
     consistent Stub.rng_state self
       (snd (Run.cross_validation self alpha_range max_iter tol plot_image
               seed w))) ∧
  (∀ output_dir alpha max_iter tol,
     consistent Stub.rng_state self
       (snd (Run.make_potential self output_dir alpha max_iter tol w))).
Proof.
  apply (consistent_preserved Stub.rng_state Stub.np_random_seed
           Stub.np_random_shuffle Stub.fitted Stub.fit Stub.predict_row
           Stub.coef_ Stub.np_mean Stub.np_mean Stub.str
           (Run.trainer (Some Ridge) None None)
           (Run.built Run.X6 Run.y6 Run.table6)).
  exists Run.X6, Run.y6. repeat split; reflexivity.
Defined.

Lemma fold_sizes_witness :
  length (validation_id 1 12) = 12 `div` 5 + 1 ∧
  length (train_id 1 12) = 12 - length (validation_id 1 12) ∧
  (5 ≤ 12 → 0 < length (validation_id 1 12) ∧ 0 < length (train_id 1 12)).
Proof.
  apply (fold_sizes 1 12). lia.
Defined.

Lemma fold_rows_permutation_witness :
  let data := Run.working_table 2020 Run.table6 in
  rows_at data (validation_id 1 (length data))
    ++ rows_at data (train_id 1 (length data)) ≡ₚ Run.table6.
Proof.
  apply (fold_rows_permutation Stub.rng_state Stub.np_random_seed
           Stub.np_random_shuffle stub_shuffle_permutes 2020 Run.table6 1).
Defined.

Lemma cross_validation_figures_witness :
  let w := Run.built Run.X6 Run.y6 Run.table6 in
  let self := Run.trainer (Some Ridge) None None in
  let w' := snd (Run.cross_validation self [0; 1]%float 1000000 1
                   (Some "atom") 2020 w) in
  plots w' =
    plots w ++ sweep_figures Stub.fitted Stub.fit Stub.predict_row
                 Stub.np_mean Stub.np_mean Ridge
                 (Run.working_table 2020 Run.table6) [0; 1]%float
                 1000000 1 (Some "atom") ∧
  length (plots w') = length (plots w) + 2 * 2 + 1.
Proof.
  apply (cross_validation_figures Stub.rng_state Stub.np_random_seed
           Stub.np_random_shuffle Stub.fitted Stub.fit Stub.predict_row
           Stub.np_mean Stub.np_mean stub_shuffle_permutes
           (Run.trainer (Some Ridge) None None) Ridge [0; 1]%float
           1000000 1 (Some "atom") 2020
           (Run.built Run.X6 Run.y6 Run.table6) Run.table6).
  - reflexivity.
  - reflexivity.
  - repeat constructor.
  - simpl. lia.
  - discriminate.
  - vm_compute. reflexivity.
Defined.

Lemma cross_validation_too_few_columns_witness :
  let w := Run.built Run.X1_empty Run.y1 Run.y1 in
  Run.cross_validation (Run.trainer (Some Ridge) None None) [0; 1]%float
      1000000 1 (Some "atom") 2020 w =
    (Raise IndexError,
     after_shuffle Stub.rng_state Stub.np_random_seed Stub.np_random_shuffle
       2020 Run.y1 w) ∧
  plots (after_shuffle Stub.rng_state Stub.np_random_seed
           Stub.np_random_shuffle 2020 Run.y1 w) = plots w.
Proof.
  apply (cross_validation_too_few_columns Stub.rng_state Stub.np_random_seed
           Stub.np_random_shuffle Stub.fitted Stub.fit Stub.predict_row
           Stub.np_mean Stub.np_mean stub_shuffle_permutes
           (Run.trainer (Some Ridge) None None) [0; 1]%float 1000000 1
           (Some "atom") 2020 (Run.built Run.X1_empty Run.y1 Run.y1) Run.y1).
  - reflexivity.
  - apply Exists_cons_hd. simpl. lia.
Defined.

Lemma example_trainer_run_witness :
  let w := Run.example_world true in
  let w' := snd (Run.example_trainer "data" w) in
  fst (Run.example_trainer "data" w) = Ok () ∧
  files w' =
    <[os_path_join "data" "re_potential" :=
        potential_text Stub.str [0x1.8p+0; 0]%float]> (files w) ∧
  plots w' =
    plots w ++ sweep_figures Stub.fitted Stub.fit Stub.predict_row
                 Stub.np_mean Stub.np_mean Ridge
                 (Run.working_table default_seed (zip_with app Run.y6 Run.X6))
                 example_alphas default_max_iter default_tol (Some "atom") ∧
  length (plots w') = length (plots w) + 9.
Proof.
  apply (example_trainer_run Stub.rng_state Stub.np_random_seed
           Stub.np_random_shuffle Stub.fitted Stub.fit Stub.predict_row
           Stub.coef_ Stub.np_mean Stub.np_mean Stub.column_norm Stub.str
           stub_shuffle_permutes "data" (Run.example_world true)
           {[ "X" := Run.X6; "y" := Run.y6 ]} Run.X6 Run.y6 6 1
           [0x1.8p+0; 0]%float).
  - vm_compute. reflexivity.
  - vm_compute. reflexivity.
  - vm_compute. reflexivity.
  - split; [reflexivity|]. repeat constructor.
  - split; [reflexivity|]. repeat constructor.
  - lia.
  - vm_compute. reflexivity.
  - vm_compute. reflexivity.
  - apply elem_of_singleton. reflexivity.
Defined.

Lemma example_trainer_unwritable_witness :
  let w := Run.example_world false in
  let w' := snd (Run.example_trainer "data" w) in
  fst (Run.example_trainer "data" w) = Raise OSError ∧
  files w' = files w ∧
  length (plots w') = length (plots w) + 9.
Proof.
  apply (example_trainer_unwritable Stub.rng_state Stub.np_random_seed
           Stub.np_random_shuffle Stub.fitted Stub.fit Stub.predict_row
           Stub.coef_ Stub.np_mean Stub.np_mean Stub.column_norm Stub.str
           stub_shuffle_permutes "data" (Run.example_world false)
           {[ "X" := Run.X6; "y" := Run.y6 ]} Run.X6 Run.y6 6 1
           [0x1.8p+0; 0]%float).
  - vm_compute. reflexivity.
  - vm_compute. reflexivity.
  - vm_compute. reflexivity.
  - split; [reflexivity|]. repeat constructor.
  - split; [reflexivity|]. repeat constructor.
  - lia.
  - vm_compute. reflexivity.
  - vm_compute. reflexivity.
  - apply not_elem_of_empty.
Defined.

Lemma cross_validation_curve_refused_witness :
  let w := Run.built Run.X6_empty_cell Run.y6_empty_cell
             Run.table6_empty_cell in
  Run.cross_validation (Run.trainer (Some Ridge) None None) [1]%float
    1000000 1 None 2020 w
  = (Raise ValueError,
     set_plots Stub.rng_state (plots w ++ [])
       (after_shuffle Stub.rng_state Stub.np_random_seed
          Stub.np_random_shuffle 2020 Run.table6_empty_cell w)).
Proof.
  apply (cross_validation_curve_refused Stub.rng_state Stub.np_random_seed
           Stub.np_random_shuffle Stub.fitted Stub.fit Stub.predict_row
           Stub.np_mean Stub.np_mean stub_shuffle_permutes
           (Run.trainer (Some Ridge) None None) Ridge [1]%float 1000000 1
           None 2020
           (Run.built Run.X6_empty_cell Run.y6_empty_cell
              Run.table6_empty_cell)
           Run.table6_empty_cell).
  - reflexivity.
  - reflexivity.
  - repeat constructor.
  - simpl. lia.
  - discriminate.
  - reflexivity.
  - intros max_e min_e [= <-] [= <-]. vm_compute. reflexivity.
Defined.
